(** * nnUNet preprocessing scripts: a shallow embedding

    The development follows the two scripts of the repository:

    - [Scripts/extract_preprocessing_params.py], the resolver that reads a
      plan document and a fingerprint document and builds the resolved
      parameter dictionary (module [Extract]);
    - [Scripts/generate_fixtures.py], the staged pipeline transpose, crop
      to nonzero, CT normalization, target shape of the resampling
      (module [Fixtures], over the arrays of module [Ndarray]).

    Conventions of the model.
    - A document returned by [json.load] is a value of [json]; a Python
      [dict] is an association list in insertion order with unique keys.
    - A Python exception is a value of [exn]; a computation that may raise
      returns [result].
    - Floating-point samples, spacings and statistics are read as exact
      rationals ([Q]): the elementwise NumPy operations are the exact
      operations, rounding error and dtype casts are not part of the model.
    - A volume is three-dimensional, as [np.transpose] with a 3-element
      permutation requires. *)

From Stdlib Require Import String Ascii.
From Stdlib Require Import List Bool Arith ZArith QArith Qround Qabs Lia Lqa.
Import ListNotations.

#[local] Set Warnings "-register-all".
Local Open Scope string_scope.
Local Open Scope nat_scope.

(** ** Exceptions and the error monad *)

Module Py.

(** The messages of the [ValueError]s: the two the resolver raises with an
    f-string (the interpolated values are kept as data) and the ones NumPy
    raises on a bad [axes] argument, on operands that do not broadcast and
    on the minimum of an empty array. *)
Inductive message :=
| ConfigurationNotFound (configuration : string) (available : list string)
| MissingCTParameters (missing_keys : list string) (available_keys : list string)
| AxesDontMatchArray
| AxisOutOfBounds (axis : Z)
| RepeatedAxis
| BroadcastMismatch
| ZeroSizeReduction.

Inductive key :=
| StrKey (s : string)
| IntKey (n : Z).

Inductive exn :=
| KeyError (k : key)
| TypeError
| AttributeError
| IndexError
| ValueError (msg : message).

Inductive result (A : Type) :=
| Ok (a : A)
| Err (e : exn).
Arguments Ok {A} a.
Arguments Err {A} e.

Definition bind {A B} (r : result A) (f : A -> result B) : result B :=
  match r with
  | Ok a => f a
  | Err e => Err e
  end.



End Py.
Export Py.

Notation "x <- c ;; k" := (bind c (fun x => k))
  (at level 61, c at next level, right associativity).

(** ** JSON documents with the Python operations the scripts use *)

Module Json.

Inductive json :=
| JNull
| JBool (b : bool)
| JInt (n : Z)
| JFloat (q : Q)
| JStr (s : string)
| JList (l : list json)
| JObj (d : list (string * json)).

Definition dict := list (string * json).

(** [d[k]] on a dict, as an option. *)
Fixpoint lookup (k : string) (d : dict) : option json :=
  match d with
  | [] => None
  | (k', v) :: d' => if String.eqb k k' then Some v else lookup k d'
  end.

(** [list(d.keys())] *)
Definition dict_keys (d : dict) : list string := map fst d.

(** [k in d] for a dict *)
Definition mem (k : string) (d : dict) : bool :=
  existsb (String.eqb k) (dict_keys d).

(** [t in s] for two strings: substring test. *)
Fixpoint is_prefix (t s : string) : bool :=
  match t, s with
  | EmptyString, _ => true
  | String a t', String b s' => Ascii.eqb a b && is_prefix t' s'
  | String _ _, EmptyString => false
  end.

Fixpoint is_substring (t s : string) : bool :=
  is_prefix t s ||
  match s with
  | EmptyString => false
  | String _ s' => is_substring t s'
  end.

(** [j[k]] with a string key: only a dict accepts it. *)
Definition getitem (j : json) (k : string) : result json :=
  match j with
  | JObj d =>
      match lookup k d with
      | Some v => Ok v
      | None => Err (KeyError (StrKey k))
      end
  | _ => Err TypeError
  end.

(** [j.get(k, default)]: a method of dicts only. *)
Definition get (j : json) (k : string) (default : json) : result json :=
  match j with
  | JObj d =>
      match lookup k d with
      | Some v => Ok v
      | None => Ok default
      end
  | _ => Err AttributeError
  end.

(** [k in j] with [k] a string: key of a dict, element of a list,
    substring of a string; the other values are not iterable. *)
Definition py_in (k : string) (j : json) : result bool :=
  match j with
  | JObj d => Ok (mem k d)
  | JList l =>
      Ok (existsb (fun e => match e with JStr s => String.eqb k s | _ => false end) l)
  | JStr s => Ok (is_substring k s)
  | _ => Err TypeError
  end.

(** [list(j.keys())] *)
Definition keys (j : json) : result (list string) :=
  match j with
  | JObj d => Ok (dict_keys d)
  | _ => Err AttributeError
  end.

(** Truth value of a document value, as [if v] tests it. *)
Definition truthy (j : json) : bool :=
  match j with
  | JNull => false
  | JBool b => b
  | JInt n => negb (n =? 0)%Z
  | JFloat q => negb (Qeq_bool q 0)
  | JStr s => negb (String.eqb s "")
  | JList l => match l with [] => false | _ => true end
  | JObj d => match d with [] => false | _ => true end
  end.

(** [j[0]] *)
Definition getitem0 (j : json) : result json :=
  match j with
  | JList (x :: _) => Ok x
  | JList [] => Err IndexError
  | JStr (String c _) => Ok (JStr (String c EmptyString))
  | JStr EmptyString => Err IndexError
  | JObj _ => Err (KeyError (IntKey 0))
  | _ => Err TypeError
  end.

End Json.
Export Json.

(** ** Scripts/extract_preprocessing_params.py *)

Module Extract.

(** The default keyword arguments written out in the [config.get] calls. *)
Definition default_data_kwargs : json :=
  JObj [("is_seg", JBool false); ("order", JInt 3); ("order_z", JInt 0);
        ("force_separate_z", JNull)].

Definition default_seg_kwargs : json :=
  JObj [("is_seg", JBool true); ("order", JInt 1); ("order_z", JInt 0);
        ("force_separate_z", JNull)].

Definition identity_axes : json := JList [JInt 0; JInt 1; JInt 2].

Definition required_keys : list string :=
  ["mean"; "std"; "percentile_00_5"; "percentile_99_5"].

(** [[k for k in required_keys if k not in channel_props]] *)
Fixpoint not_in_props (ks : list string) (channel_props : json)
  : result (list string) :=
  match ks with
  | [] => Ok []
  | k :: ks' =>
      present <- py_in k channel_props ;;
      rest <- not_in_props ks' channel_props ;;
      Ok (if present then rest else k :: rest)
  end.

(** The expression of the [original_median_shape] entry:
    [fingerprint.get("shapes_after_crop", [[]])[0]
       if fingerprint.get("shapes_after_crop") else []]. *)
Definition original_median_shape (fingerprint : json) : result json :=
  cond <- get fingerprint "shapes_after_crop" JNull ;;
  if truthy cond then
    shapes <- get fingerprint "shapes_after_crop" (JList [JList []]) ;;
    getitem0 shapes
  else Ok (JList []).

(** The dict literal bound to [params]; its entries are evaluated in the
    order they are written. *)
Definition build_params (plans fingerprint config : json) (configuration : string)
  : result dict :=
  target_spacing <- getitem config "spacing" ;;
  patch_size <- getitem config "patch_size" ;;
  transpose_forward <- get plans "transpose_forward" identity_axes ;;
  transpose_backward <- get plans "transpose_backward" identity_axes ;;
  normalization_schemes <- getitem config "normalization_schemes" ;;
  use_mask_for_norm <- get config "use_mask_for_norm" (JList [JBool false]) ;;
  foreground <- get fingerprint "foreground_intensity_properties_per_channel" (JObj []) ;;
  fn_data <- get config "resampling_fn_data" (JStr "resample_data_or_seg_to_shape") ;;
  fn_data_kwargs <- get config "resampling_fn_data_kwargs" default_data_kwargs ;;
  fn_seg <- get config "resampling_fn_seg" (JStr "resample_data_or_seg_to_shape") ;;
  fn_seg_kwargs <- get config "resampling_fn_seg_kwargs" default_seg_kwargs ;;
  original_spacing <- get fingerprint "spacing" (JList []) ;;
  median_shape <- original_median_shape fingerprint ;;
  Ok [ ("configuration_name", JStr configuration);
       ("target_spacing", target_spacing);
       ("patch_size", patch_size);
       ("transpose_forward", transpose_forward);
       ("transpose_backward", transpose_backward);
       ("normalization_schemes", normalization_schemes);
       ("use_mask_for_norm", use_mask_for_norm);
       ("foreground_intensity_properties", foreground);
       ("resampling_fn_data", fn_data);
       ("resampling_fn_data_kwargs", fn_data_kwargs);
       ("resampling_fn_seg", fn_seg);
       ("resampling_fn_seg_kwargs", fn_seg_kwargs);
       ("anisotropy_threshold", JFloat 3%Q);
       ("original_spacing", original_spacing);
       ("original_median_shape", median_shape) ].

(** The block under "Validate CT normalization parameters". *)
Definition validate_ct (config : json) (params : dict) : result unit :=
  schemes <- getitem config "normalization_schemes" ;;
  uses_ct <- py_in "CTNormalization" schemes ;;
  if uses_ct then
    foreground <- getitem (JObj params) "foreground_intensity_properties" ;;
    channel_props <- get foreground "0" (JObj []) ;;
    missing_keys <- not_in_props required_keys channel_props ;;
    match missing_keys with
    | [] => Ok tt
    | _ :: _ =>
        available <- keys channel_props ;;
        Err (ValueError (MissingCTParameters missing_keys available))
    end
  else Ok tt.

(** [extract_preprocessing_params], after the two [json.load] calls. *)
Definition extract_preprocessing_params
  (plans fingerprint : json) (configuration : string) : result dict :=
  configurations <- getitem plans "configurations" ;;
  present <- py_in configuration configurations ;;
  if negb present then
    available <- keys configurations ;;
    Err (ValueError (ConfigurationNotFound configuration available))
  else
    config <- getitem configurations configuration ;;
    params <- build_params plans fingerprint config configuration ;;
    _ <- validate_ct config params ;;
    Ok params.

(** The field names of the resolved parameter document. *)
Definition param_fields : list string :=
  [ "configuration_name"; "target_spacing"; "patch_size";
    "transpose_forward"; "transpose_backward";
    "normalization_schemes"; "use_mask_for_norm";
    "foreground_intensity_properties";
    "resampling_fn_data"; "resampling_fn_data_kwargs";
    "resampling_fn_seg"; "resampling_fn_seg_kwargs";
    "anisotropy_threshold"; "original_spacing"; "original_median_shape" ].

(** [d.get(k, default)] on a dict, as a value. *)
Definition entry_or (d : dict) (k : string) (default : json) : json :=
  match lookup k d with
  | Some v => v
  | None => default
  end.

(** The entries read with [config[...]], in the order the dict literal
    reads them, and the first of them a configuration lacks. *)
Definition required_entries : list string :=
  ["spacing"; "patch_size"; "normalization_schemes"].

Definition first_missing_entry (cd : dict) : option string :=
  find (fun k => negb (mem k cd)) required_entries.

End Extract.

(** ** Three-dimensional NumPy arrays *)

Module Ndarray.

Definition vec3 (A : Type) : Type := (A * A * A)%type.

Definition vnth {A} (v : vec3 A) (axis : nat) : A :=
  let '(x, y, z) := v in
  match axis with
  | O => x
  | S O => y
  | _ => z
  end.

Definition vlist {A} (v : vec3 A) : list A :=
  let '(x, y, z) := v in [x; y; z].

(** An array of rank 3: its [shape] and its samples, indexed depth first
    ([data a] is what [a.tolist()] returns). *)
Record ndarray (A : Type) := mk_ndarray {
  shape : vec3 nat;
  data : list (list (list A))
}.
Arguments mk_ndarray {A} shape data.
Arguments shape {A} n.
Arguments data {A} n.

(** The samples fill the shape. *)
Definition wf {A} (a : ndarray A) : Prop :=
  let '(n0, n1, n2) := shape a in
  length (data a) = n0 /\
  Forall (fun plane =>
            length plane = n1 /\ Forall (fun row => length row = n2) plane)
         (data a).

(** [a[i, j, k]]; [d] stands for a sample outside the array. *)
Definition sample {A} (d : A) (a : ndarray A) (i j k : nat) : A :=
  nth k (nth j (nth i (data a) []) []) d.

(** The array of shape [s] whose sample at [(i, j, k)] is [f i j k]. *)
Definition tabulate {A} (s : vec3 nat) (f : nat -> nat -> nat -> A) : ndarray A :=
  let '(n0, n1, n2) := s in
  mk_ndarray s
    (map (fun i => map (fun j => map (fun k => f i j k) (seq 0 n2)) (seq 0 n1))
         (seq 0 n0)).

(** An elementwise operation with a scalar. *)
Definition amap {A B} (f : A -> B) (a : ndarray A) : ndarray B :=
  mk_ndarray (shape a) (map (map (map f)) (data a)).

(** [a.any()] *)
Definition any (m : ndarray bool) : bool :=
  existsb (existsb (existsb (fun b : bool => b))) (data m).

(** An index of the array and its place inside a shape. *)
Definition sample_at {A} (d : A) (a : ndarray A) (idx : vec3 nat) : A :=
  let '(i, j, k) := idx in sample d a i j k.

Definition in_range (s : vec3 nat) (idx : vec3 nat) : Prop :=
  let '(n0, n1, n2) := s in
  let '(i, j, k) := idx in
  i < n0 /\ j < n1 /\ k < n2.

(** The index with [n] on [axis] and [p], [q] on the two other axes, and
    the lengths of those two axes. *)
Definition along (axis n p q : nat) : vec3 nat :=
  match axis with
  | O => (n, p, q)
  | S O => (p, n, q)
  | _ => (p, q, n)
  end.

Definition other_axes (s : vec3 nat) (axis : nat) : nat * nat :=
  let '(n0, n1, n2) := s in
  match axis with
  | O => (n1, n2)
  | S O => (n0, n2)
  | _ => (n0, n1)
  end.

(** [m.any(axis=...)] over the two axes other than [axis]: one entry for
    each index [n] of [axis], true when some sample with that index is. *)
Definition any_along (m : ndarray bool) (axis : nat) : list bool :=
  let '(d1, d2) := other_axes (shape m) axis in
  map (fun n =>
         existsb (fun p =>
                    existsb (fun q => sample_at false m (along axis n p q))
                            (seq 0 d2))
                 (seq 0 d1))
      (seq 0 (vnth (shape m) axis)).

(** [np.where(mask)[0]] for a one-dimensional mask. *)
Definition np_where (mask : list bool) : list nat :=
  filter (fun i => nth i mask false) (seq 0 (length mask)).

(** [a[lo0:hi0, lo1:hi1, lo2:hi2]] with non-negative bounds: a slice stops
    at the end of its axis. *)
Definition slice_bounds (n : nat) (b : nat * nat) : nat * nat :=
  let start := Nat.min (fst b) n in
  let stop := Nat.min (snd b) n in
  (start, stop - start).

Definition slice3 {A} (d : A) (a : ndarray A) (bbox : vec3 (nat * nat)) : ndarray A :=
  let '(n0, n1, n2) := shape a in
  let '(b0, b1, b2) := bbox in
  let '(s0, l0) := slice_bounds n0 b0 in
  let '(s1, l1) := slice_bounds n1 b1 in
  let '(s2, l2) := slice_bounds n2 b2 in
  tabulate (l0, l1, l2) (fun i j k => sample d a (s0 + i) (s1 + j) (s2 + k)).

(** Axes of [np.transpose]: each one is brought into [0..2] and must not
    have been seen before. *)
Definition normalize_axis (ax : Z) : result nat :=
  if ((-3 <=? ax) && (ax <? 3))%Z
  then Ok (Z.to_nat (if (ax <? 0)%Z then ax + 3 else ax))
  else Err (ValueError (AxisOutOfBounds ax)).

Fixpoint check_axes (seen : list nat) (axes : list Z) : result (list nat) :=
  match axes with
  | [] => Ok []
  | ax :: rest =>
      p <- normalize_axis ax ;;
      if existsb (Nat.eqb p) seen then Err (ValueError RepeatedAxis)
      else ps <- check_axes (p :: seen) rest ;; Ok (p :: ps)
  end.

(** The index along [axis] of the source sample that lands at
    [(i0, i1, i2)] when the result's axes are the source's axes
    [p0, p1, p2]. *)
Definition source_index (p0 p1 p2 : nat) (i0 i1 i2 : nat) (axis : nat) : nat :=
  if Nat.eqb p0 axis then i0
  else if Nat.eqb p1 axis then i1
  else if Nat.eqb p2 axis then i2
  else 0.

(** The array whose axes are the axes [p0, p1, p2] of [a]. *)
Definition permute_axes {A} (d : A) (a : ndarray A) (p0 p1 p2 : nat) : ndarray A :=
  let src := source_index p0 p1 p2 in
  tabulate (vnth (shape a) p0, vnth (shape a) p1, vnth (shape a) p2)
    (fun i0 i1 i2 =>
       sample d a (src i0 i1 i2 0) (src i0 i1 i2 1) (src i0 i1 i2 2)).

(** [np.transpose(a, axes)] *)
Definition np_transpose {A} (d : A) (a : ndarray A) (axes : list Z)
  : result (ndarray A) :=
  match axes with
  | [_; _; _] =>
      ps <- check_axes [] axes ;;
      match ps with
      | [p0; p1; p2] => Ok (permute_axes d a p0 p1 p2)
      | _ => Err (ValueError AxesDontMatchArray)
      end
  | _ => Err (ValueError AxesDontMatchArray)
  end.

(** [v[axes]] on a one-dimensional array, [axes] a list of integers. *)
Fixpoint fancy_index {A} (d : A) (v : list A) (axes : list Z) : result (list A) :=
  match axes with
  | [] => Ok []
  | ax :: rest =>
      let n := Z.of_nat (length v) in
      if ((- n <=? ax) && (ax <? n))%Z then
        tl <- fancy_index d v rest ;;
        Ok (nth (Z.to_nat (if (ax <? 0)%Z then ax + n else ax)) v d :: tl)
      else Err IndexError
  end.

(** The number of samples of a shape. *)
Definition size (s : vec3 nat) : nat :=
  let '(n0, n1, n2) := s in n0 * n1 * n2.

(** The six orders of the axes. *)
Definition axes_orders : list (vec3 nat) :=
  [ (0, 1, 2); (0, 2, 1); (1, 0, 2); (1, 2, 0); (2, 0, 1); (2, 1, 0) ].

(** The axis an entry of [axes] names: a negative one counts from the
    end. *)
Definition axis_of (ax : Z) : nat :=
  Z.to_nat (if (ax <? 0)%Z then ax + 3 else ax).

End Ndarray.
Export Ndarray.

(** ** Scripts/generate_fixtures.py *)

Module Fixtures.

(** *** The documents, at the types the pipeline computes with

    The entries of the plan and fingerprint documents are read at the
    types of the plan format: scheme identifiers are strings, spacings and
    statistics are numbers, axes are integers.  An absent key is [None] in
    a record and absent from a dict. *)

Definition tdict (V : Type) : Type := list (string * V).

Fixpoint tlookup {V} (k : string) (d : tdict V) : option V :=
  match d with
  | [] => None
  | (k', v) :: d' => if String.eqb k k' then Some v else tlookup k d'
  end.

(** [d[k]] *)
Definition item {V} (k : string) (d : tdict V) : result V :=
  match tlookup k d with
  | Some v => Ok v
  | None => Err (KeyError (StrKey k))
  end.

(** [d.get(k, default)] *)
Definition get_or {V} (k : string) (d : tdict V) (default : V) : V :=
  match tlookup k d with
  | Some v => v
  | None => default
  end.

(** [doc[k]] for an entry of a record. *)
Definition require {V} (k : string) (entry : option V) : result V :=
  match entry with
  | Some v => Ok v
  | None => Err (KeyError (StrKey k))
  end.

Definition or_default {V} (entry : option V) (default : V) : V :=
  match entry with
  | Some v => v
  | None => default
  end.

Record kwargs := mk_kwargs {
  is_seg : bool;
  order : Z;
  order_z : Z;
  force_separate_z : option bool
}.

Definition default_kwargs : kwargs := mk_kwargs false 3 0 None.

Record config := mk_config {
  normalization_schemes : option (list string);
  spacing : option (list Q);
  resampling_fn_data_kwargs : option kwargs
}.

Record plans := mk_plans {
  transpose_forward : option (list Z);
  configurations : option (tdict config)
}.

Record fingerprint := mk_fingerprint {
  foreground_intensity_properties_per_channel : option (tdict (tdict Q))
}.

(** The resolved parameter document read by the synthetic variant. *)
Record params := mk_params {
  configuration_name : option string;
  original_spacing : option (list Q);
  params_transpose_forward : option (list Z);
  params_normalization_schemes : option (list string);
  foreground_intensity_properties : option (tdict (tdict Q));
  target_spacing : option (list Q);
  params_resampling_fn_data_kwargs : option kwargs
}.

(** [x in schemes] for a list of strings. *)
Definition str_in (x : string) (l : list string) : bool :=
  existsb (String.eqb x) l.

(** *** Stage 2: transpose *)

Definition transpose_stage (current : ndarray Q) (spacing : list Q)
  (transpose_forward : list Z) : result (ndarray Q * list Q) :=
  transposed <- np_transpose 0%Q current transpose_forward ;;
  transposed_spacing <- fancy_index 0%Q spacing transpose_forward ;;
  Ok (transposed, transposed_spacing).

(** *** Stage 3: crop to nonzero *)

(** [current != 0] *)
Definition nonzero (x : Q) : bool := negb (Qeq_bool x 0).

Definition nonzero_mask (current : ndarray Q) : ndarray bool :=
  amap nonzero current.

(** The body of the loop over the axes: [(indices[0], indices[-1] + 1)],
    or the whole axis when no index is selected. *)
Definition axis_bbox (mask : ndarray bool) (axis : nat) : nat * nat :=
  let axis_mask := any_along mask axis in
  let indices := np_where axis_mask in
  match indices with
  | first :: _ => (first, last indices 0 + 1)
  | [] => (0, vnth (shape mask) axis)
  end.

(** The place [idx] holds a nonzero sample of [a]. *)
Definition nonzero_at (a : ndarray Q) (idx : vec3 nat) : Prop :=
  in_range (shape a) idx /\ nonzero (sample_at 0%Q a idx) = true.

Definition full_extent (s : vec3 nat) : vec3 (nat * nat) :=
  let '(n0, n1, n2) := s in ((0, n0), (0, n1), (0, n2)).

(** A box holds an index when each interval [lo, hi) holds its
    coordinate; [inside_box b1 b2] when [b2] holds every index of [b1]. *)
Definition in_box (box : vec3 (nat * nat)) (idx : vec3 nat) : Prop :=
  forall axis, axis < 3 ->
    fst (vnth box axis) <= vnth idx axis /\ vnth idx axis < snd (vnth box axis).

Definition contains_nonzero (a : ndarray Q) (box : vec3 (nat * nat)) : Prop :=
  forall idx, nonzero_at a idx -> in_box box idx.

Definition inside_box (b1 b2 : vec3 (nat * nat)) : Prop :=
  forall axis, axis < 3 ->
    fst (vnth b2 axis) <= fst (vnth b1 axis) /\
    snd (vnth b1 axis) <= snd (vnth b2 axis).

Definition box_shape (box : vec3 (nat * nat)) : vec3 nat :=
  let '(b0, b1, b2) := box in
  (snd b0 - fst b0, snd b1 - fst b1, snd b2 - fst b2).

(** The place in the cropped array of the index [idx] of the input. *)
Definition shift (box : vec3 (nat * nat)) (idx : vec3 nat) : vec3 nat :=
  let '(b0, b1, b2) := box in
  let '(i, j, k) := idx in
  (i - fst b0, j - fst b1, k - fst b2).

Definition crop_stage (current : ndarray Q) : ndarray Q * vec3 (nat * nat) :=
  let mask := nonzero_mask current in
  if any mask then
    let bbox := (axis_bbox mask 0, axis_bbox mask 1, axis_bbox mask 2) in
    (slice3 0%Q current bbox, bbox)
  else
    (current, full_extent (shape current)).

(** *** Stage 4: CT normalization *)

Definition Qltb (x y : Q) : bool := negb (Qle_bool y x).

(** [np.maximum], [np.minimum] and [np.clip] on one sample. *)
Definition np_maximum (x y : Q) : Q := if Qltb x y then y else x.
Definition np_minimum (x y : Q) : Q := if Qltb y x then y else x.
Definition np_clip (x lower upper : Q) : Q :=
  np_minimum (np_maximum x lower) upper.

(** The builtin [max(a, b)]: [b] only when it is greater than [a]. *)
Definition py_max (a b : Q) : Q := if Qltb a b then b else a.

(** The literal [1e-8]. *)
Definition eps : Q := (1 # 100000000)%Q.

(** The two statements under "Clip and normalize". *)
Definition ct_normalize (mean std lower upper : Q) (current : ndarray Q)
  : ndarray Q :=
  let clipped := amap (fun x => np_clip x lower upper) current in
  amap (fun x => ((x - mean) / py_max std eps)%Q) clipped.

(** [generate_fixtures]: the statistics are read with [props[...]]. *)
Definition normalization_stage (schemes : list string) (fp : fingerprint)
  (current : ndarray Q) : result (ndarray Q) :=
  if str_in "CTNormalization" schemes then
    per_channel <- require "foreground_intensity_properties_per_channel"
                     (foreground_intensity_properties_per_channel fp) ;;
    props <- item "0" per_channel ;;
    mean <- item "mean" props ;;
    std <- item "std" props ;;
    lower <- item "percentile_00_5" props ;;
    upper <- item "percentile_99_5" props ;;
    Ok (ct_normalize mean std lower upper current)
  else Ok current.

(** [generate_synthetic_fixtures]: the statistics are read with
    [props.get(..., default)]. *)
Definition synthetic_normalization_stage (p : params) (current : ndarray Q)
  : result (ndarray Q) :=
  if str_in "CTNormalization" (or_default (params_normalization_schemes p) []) then
    per_channel <- require "foreground_intensity_properties"
                     (foreground_intensity_properties p) ;;
    let props := get_or "0" per_channel [] in
    let mean := get_or "mean" props (1005 # 10)%Q in
    let std := get_or "std" props (502 # 10)%Q in
    let lower := get_or "percentile_00_5" props (- (1024 # 1))%Q in
    let upper := get_or "percentile_99_5" props (1500 # 1)%Q in
    Ok (ct_normalize mean std lower upper current)
  else Ok current.

(** The summary statistics written to the metadata of stage 4 need a
    sample: [np.min] of an empty array raises. *)
Definition summary_statistics (current : ndarray Q) : result unit :=
  let '(n0, n1, n2) := shape current in
  if Nat.eqb (n0 * n1 * n2) 0 then Err (ValueError ZeroSizeReduction) else Ok tt.

(** *** Stage 5: resample to the target spacing *)

(** [np.round] on one value: to the nearest integer, a tie to the even
    one; [.astype(int)] then reads the integral value as an integer. *)
Definition np_round (q : Q) : Z :=
  let f := Qfloor q in
  match (q - inject_Z f ?= 1 # 2)%Q with
  | Lt => f
  | Gt => (f + 1)%Z
  | Eq => if Z.even f then f else (f + 1)%Z
  end.

(** An elementwise operation on two one-dimensional arrays, with NumPy's
    broadcasting of a one-element operand. *)
Definition np_binop (f : Q -> Q -> Q) (x y : list Q) : result (list Q) :=
  if Nat.eqb (length x) (length y) then Ok (map (fun p => f (fst p) (snd p)) (combine x y))
  else match x, y with
       | [a], _ => Ok (map (fun b => f a b) y)
       | _, [b] => Ok (map (fun a => f a b) x)
       | _, _ => Err (ValueError BroadcastMismatch)
       end.

(** The two statements under "Compute target shape".  A zero in
    [target_spacing] makes NumPy produce an infinity or a NaN, which has
    no counterpart here: the statements about this function take the
    target spacing positive. *)
Definition compute_target_shape (current_shape : vec3 nat)
  (current_spacing target_spacing : list Q) : result (list Z) :=
  scale_factors <- np_binop Qdiv current_spacing target_spacing ;;
  scaled <- np_binop Qmult
              (map (fun n => inject_Z (Z.of_nat n)) (vlist current_shape))
              scale_factors ;;
  Ok (map np_round scaled).

(** *** Permutations of the three axes *)

(** [p] has three entries and each of 0, 1, 2 is one of them. *)
Definition is_permutation (p : list Z) : bool :=
  Nat.eqb (length p) 3 && forallb (fun x => existsb (Z.eqb x) p) [0; 1; 2]%Z.

(** [b[f[i]] = i] for each axis [i]. *)
Definition undoes (f b : list Z) : bool :=
  forallb (fun i => (nth (Z.to_nat (nth i f (-1))) b (-1) =? Z.of_nat i)%Z)
          [0; 1; 2].

Definition mutual_inverses (forward backward : list Z) : bool :=
  undoes forward backward && undoes backward forward.

Section Pipeline.

(** The resampling function imported from [nnunetv2]: it receives the
    array with a channel axis in front, the target shape, both spacings
    and the keyword arguments. *)
Variable resample_data_or_seg_to_shape :
  list (ndarray Q) -> list Z -> list Q -> list Q -> kwargs ->
  result (list (ndarray Q)).

Definition resample_stage (current : ndarray Q)
  (current_spacing target_spacing : list Q) (kw : option kwargs)
  : result (ndarray Q) :=
  target_shape <- compute_target_shape (shape current) current_spacing target_spacing ;;
  let current_with_channel := [current] in
  let resample_kwargs := or_default kw default_kwargs in
  resampled <- resample_data_or_seg_to_shape current_with_channel target_shape
                 current_spacing target_spacing resample_kwargs ;;
  match resampled with
  | first :: _ => Ok first
  | [] => Err IndexError
  end.

Record stages := mk_stages {
  raw : ndarray Q;
  transposed : ndarray Q;
  transposed_spacing : list Q;
  cropped : ndarray Q;
  bbox : vec3 (nat * nat);
  normalized : ndarray Q;
  resampled : ndarray Q
}.

(** [generate_fixtures], from the loaded documents and volume to the
    five stage arrays. *)
Definition generate_fixtures (raw_data : ndarray Q) (spacing : list Q)
  (pl : plans) (fp : fingerprint) (configuration : string) : result stages :=
  all_configs <- require "configurations" (configurations pl) ;;
  config <- item configuration all_configs ;;
  let axes := or_default (transpose_forward pl) [0; 1; 2]%Z in
  ts <- transpose_stage raw_data spacing axes ;;
  let '(t, tspacing) := ts in
  let '(c, bbox_list) := crop_stage t in
  schemes <- require "normalization_schemes" (normalization_schemes config) ;;
  n <- normalization_stage schemes fp c ;;
  _ <- summary_statistics n ;;
  target <- require "spacing" (Fixtures.spacing config) ;;
  r <- resample_stage n tspacing target (resampling_fn_data_kwargs config) ;;
  Ok (mk_stages raw_data t tspacing c bbox_list n r).

(** [generate_synthetic_fixtures], from the synthetic volume on. *)
Definition generate_synthetic_fixtures (raw_data : ndarray Q) (p : params)
  : result stages :=
  let raw_spacing := or_default (original_spacing p) [25 # 10; 7 # 10; 7 # 10]%Q in
  _ <- require "configuration_name" (configuration_name p) ;;
  let axes := or_default (params_transpose_forward p) [0; 1; 2]%Z in
  ts <- transpose_stage raw_data raw_spacing axes ;;
  let '(t, tspacing) := ts in
  let '(c, bbox_list) := crop_stage t in
  n <- synthetic_normalization_stage p c ;;
  _ <- summary_statistics n ;;
  let target := or_default (target_spacing p) [1; 5 # 10; 5 # 10]%Q in
  r <- resample_stage n tspacing target (params_resampling_fn_data_kwargs p) ;;
  Ok (mk_stages raw_data t tspacing c bbox_list n r).

End Pipeline.

(** What the stage arrays of one run have to do with each other. *)
Definition stages_consistent (raw_data : ndarray Q) (st : stages) : Prop :=
  raw st = raw_data /\
  wf (transposed st) /\
  size (shape (transposed st)) = size (shape raw_data) /\
  length (transposed_spacing st) = 3 /\
  crop_stage (transposed st) = (cropped st, bbox st) /\
  wf (cropped st) /\
  wf (normalized st) /\
  shape (normalized st) = shape (cropped st) /\
  0 < size (shape (normalized st)).

(** The statistics read with [props[...]], in the order they are read,
    and the first of them a statistics dict lacks. *)
Definition statistics_keys : list string :=
  ["mean"; "std"; "percentile_00_5"; "percentile_99_5"].

Definition first_missing_statistic (props : tdict Q) : option string :=
  find (fun k => match tlookup k props with Some _ => false | None => true end)
       statistics_keys.


End Fixtures.

(** ** Example documents *)

Module Examples.

(** A plan with one configuration that uses CT normalization. *)
Definition plans : json :=
  JObj [ ("configurations",
          JObj [ ("3d_fullres",
                  JObj [ ("spacing", JList [JFloat 1; JFloat (5 # 10); JFloat (5 # 10)]);
                         ("patch_size", JList [JInt 32; JInt 64; JInt 64]);
                         ("normalization_schemes", JList [JStr "CTNormalization"]) ]) ]);
         ("transpose_forward", JList [JInt 0; JInt 1; JInt 2]) ].

Definition ct_statistics : json :=
  JObj [ ("mean", JFloat (1005 # 10)); ("std", JFloat (502 # 10));
         ("percentile_00_5", JFloat (- (1024 # 1))); ("percentile_99_5", JFloat 1500) ].

(** A fingerprint with complete statistics and three recorded shapes whose
    median is not the first one. *)
Definition fingerprint : json :=
  JObj [ ("foreground_intensity_properties_per_channel", JObj [("0", ct_statistics)]);
         ("spacing", JList [JFloat (25 # 10); JFloat (7 # 10); JFloat (7 # 10)]);
         ("shapes_after_crop",
          JList [ JList [JInt 1; JInt 1; JInt 1];
                  JList [JInt 5; JInt 5; JInt 5];
                  JList [JInt 9; JInt 9; JInt 9] ]) ].

(** The same fingerprint with two of the four statistics. *)
Definition partial_fingerprint : json :=
  JObj [ ("foreground_intensity_properties_per_channel",
          JObj [("0", JObj [("mean", JFloat (1005 # 10)); ("std", JFloat (502 # 10))])]) ].

(** A volume of shape (2, 3, 4) with two nonzero samples. *)
Definition volume : ndarray Q :=
  mk_ndarray (2, 3, 4)
    [ [ [0; 0; 0; 0]; [0; 1; 0; 0]; [0; 0; 2000; 0] ];
      [ [0; 0; 0; 0]; [0; 0; 0; 0]; [0; 0; 0; 0] ] ]%Q.

(** A volume of shape (1, 2, 2) without a zero sample. *)
Definition thin_volume : ndarray Q :=
  mk_ndarray (1, 2, 2) [ [ [1; 1]; [1; 1] ] ]%Q.

(** A volume of shape (1, 2, 2) of zeros. *)
Definition zero_volume : ndarray Q :=
  mk_ndarray (1, 2, 2) [ [ [0; 0]; [0; 0] ] ]%Q.

(** The statistics of the end-to-end scenario, as the pipeline reads them. *)
Definition ct_props : Fixtures.tdict Q :=
  [ ("mean", 1005 # 10); ("std", 502 # 10);
    ("percentile_00_5", - (1024 # 1)); ("percentile_99_5", 1500 # 1) ]%Q.

Definition fixture_fingerprint : Fixtures.fingerprint :=
  Fixtures.mk_fingerprint (Some [("0", ct_props)]).

Definition synthetic_params : Fixtures.params :=
  Fixtures.mk_params (Some "3d_fullres") None None (Some ["CTNormalization"])
    (Some [("0", ct_props)]) None None.

(** A stand-in for the external resampling function: it hands the
    channels back. *)
Definition pass_through_resampler
  (data : list (ndarray Q)) (target_shape : list Z)
  (current_spacing target_spacing : list Q) (kw : Fixtures.kwargs)
  : result (list (ndarray Q)) :=
  Ok data.

(** A volume of shape (0, 2, 2): no sample. *)
Definition empty_volume : ndarray Q := mk_ndarray (0, 2, 2) [].

(** The plan and the fingerprint of the scenario, as the pipeline reads
    them, and the parameter document that carries their entries. *)
Definition fixture_config : Fixtures.config :=
  Fixtures.mk_config (Some ["CTNormalization"]) (Some [1; 5 # 10; 5 # 10]%Q) None.

Definition fixture_plans : Fixtures.plans :=
  Fixtures.mk_plans None (Some [("3d_fullres", fixture_config)]).


End Examples.

(** * Properties of the resolver *)

Section ResolverFacts.

Import Extract.

Lemma bind_ok_inv {A B} (c : result A) (k : A -> result B) (b : B) :
  bind c k = Ok b -> exists a, c = Ok a /\ k a = Ok b.
Proof.
  destruct c as [a | e]; simpl; intros H.
  - exists a. split; [reflexivity | exact H].
  - discriminate H.
Qed.

Lemma lookup_mem (k : string) (d : dict) (v : json) :
  lookup k d = Some v -> mem k d = true.
Proof.
  unfold mem, dict_keys.
  induction d as [| [k' v'] d IH]; simpl; intros H.
  - discriminate H.
  - destruct (String.eqb k k'); simpl; [reflexivity | apply IH, H].
Qed.

Lemma mem_lookup (k : string) (d : dict) :
  mem k d = true -> exists v, lookup k d = Some v.
Proof.
  unfold mem, dict_keys.
  induction d as [| [k' v'] d IH]; simpl; intros H.
  - discriminate H.
  - destruct (String.eqb k k'); simpl in *.
    + exists v'. reflexivity.
    + apply IH, H.
Qed.

Lemma not_mem_lookup (k : string) (d : dict) :
  mem k d = false -> lookup k d = None.
Proof.
  unfold mem, dict_keys.
  induction d as [| [k' v'] d IH]; simpl; intros H.
  - reflexivity.
  - destruct (String.eqb k k'); simpl in *; [discriminate H | apply IH, H].
Qed.

(** On a dict the comprehension over [required_keys] is a filter. *)
Lemma not_in_props_dict (ks : list string) (stats : dict) :
  not_in_props ks (JObj stats) = Ok (filter (fun k => negb (mem k stats)) ks).
Proof.
  induction ks as [| k ks IH]; simpl.
  - reflexivity.
  - rewrite IH. simpl. destruct (mem k stats); reflexivity.
Qed.

(** What a returned [params] looks like. *)
Lemma build_params_shape plans fingerprint config configuration params :
  build_params plans fingerprint config configuration = Ok params ->
  exists v1 v2 v3 v4 v5 v6 v7 v8 v9 v10 v11 v12 median,
    original_median_shape fingerprint = Ok median /\
    get fingerprint "foreground_intensity_properties_per_channel" (JObj []) = Ok v7 /\
    params =
      [ ("configuration_name", JStr configuration);
        ("target_spacing", v1); ("patch_size", v2);
        ("transpose_forward", v3); ("transpose_backward", v4);
        ("normalization_schemes", v5); ("use_mask_for_norm", v6);
        ("foreground_intensity_properties", v7);
        ("resampling_fn_data", v8); ("resampling_fn_data_kwargs", v9);
        ("resampling_fn_seg", v10); ("resampling_fn_seg_kwargs", v11);
        ("anisotropy_threshold", JFloat 3%Q);
        ("original_spacing", v12);
        ("original_median_shape", median) ].
Proof.
  unfold build_params. intros H.
  repeat (apply bind_ok_inv in H; destruct H as [? [? H]]).
  injection H as <-.
  do 13 eexists. repeat split; eassumption.
Qed.

(** What a successful run went through. *)
Lemma extract_ok_inv plans fingerprint configuration params :
  extract_preprocessing_params plans fingerprint configuration = Ok params ->
  exists configurations config,
    getitem plans "configurations" = Ok configurations /\
    py_in configuration configurations = Ok true /\
    getitem configurations configuration = Ok config /\
    build_params plans fingerprint config configuration = Ok params /\
    validate_ct config params = Ok tt.
Proof.
  unfold extract_preprocessing_params. intros H.
  apply bind_ok_inv in H. destruct H as [configurations [Hc H]].
  apply bind_ok_inv in H. destruct H as [present [Hp H]].
  destruct present; simpl in H.
  - apply bind_ok_inv in H. destruct H as [config [Hg H]].
    apply bind_ok_inv in H. destruct H as [params' [Hb H]].
    apply bind_ok_inv in H. destruct H as [[] [Hv H]].
    injection H as <-.
    exists configurations, config. repeat split; assumption.
  - apply bind_ok_inv in H. destruct H as [? [_ H]]. discriminate H.
Qed.

Lemma get_dict (d : dict) (k : string) (dflt : json) :
  get (JObj d) k dflt
  = Ok (match lookup k d with Some v => v | None => dflt end).
Proof.
  unfold get. destruct (lookup k d); reflexivity.
Qed.



End ResolverFacts.

Section ResolverErrors.

Import Extract.











End ResolverErrors.

Section ResolverClaims.

Import Extract.



(** The resolver does return a record on the example documents. *)
Example resolver_returns_on_example :
  exists params,
    extract_preprocessing_params Examples.plans Examples.fingerprint "3d_fullres"
    = Ok params /\ dict_keys params = param_fields.
Proof.
  eexists. split; [vm_compute; reflexivity | reflexivity].
Qed.

(** C5. When the resolver has found the configuration and built the
    record, the scheme list contains "CTNormalization" and the statistics
    of channel "0" are a dict: the resolver fails with the error that
    carries exactly the required fields absent from that dict, in the
    order mean, std, percentile_00_5, percentile_99_5, when one is
    absent, and returns the record when the four are present. *)
Theorem ct_statistics_validation
  (plans fingerprint : json) (configuration : string)
  (configs : dict) (config schemes : json) (params channels stats : dict) :
  getitem plans "configurations" = Ok (JObj configs) ->
  lookup configuration configs = Some config ->
  build_params plans fingerprint config configuration = Ok params ->
  getitem config "normalization_schemes" = Ok schemes ->
  py_in "CTNormalization" schemes = Ok true ->
  get fingerprint "foreground_intensity_properties_per_channel" (JObj [])
  = Ok (JObj channels) ->
  get (JObj channels) "0" (JObj []) = Ok (JObj stats) ->
  extract_preprocessing_params plans fingerprint configuration
  = match filter (fun k => negb (mem k stats)) required_keys with
    | [] => Ok params
    | missing => Err (ValueError (MissingCTParameters missing (dict_keys stats)))
    end.
Proof.
  intros Hc Hl Hb Hs Hct Hf Hch.
  unfold extract_preprocessing_params.
  rewrite Hc. simpl. rewrite (lookup_mem _ _ _ Hl). simpl.
  rewrite Hl. simpl. rewrite Hb. simpl.
  unfold validate_ct. rewrite Hs. simpl. rewrite Hct. simpl.
  apply build_params_shape in Hb.
  destruct Hb as (v1 & v2 & v3 & v4 & v5 & v6 & v7 & v8 & v9 & v10 & v11
                  & v12 & median & _ & Hf' & ->).
  rewrite Hf in Hf'. injection Hf' as <-.
  cbn [lookup String.eqb Ascii.eqb Bool.eqb bind].
  rewrite Hch. cbn [bind py_in].
  destruct (mem "mean" stats), (mem "std" stats),
    (mem "percentile_00_5" stats), (mem "percentile_99_5" stats); reflexivity.
Qed.

Lemma ct_statistics_validation_witness :
  extract_preprocessing_params Examples.plans Examples.partial_fingerprint "3d_fullres"
  = Err (ValueError (MissingCTParameters
                       ["percentile_00_5"; "percentile_99_5"] ["mean"; "std"]))
  /\ exists params,
       extract_preprocessing_params Examples.plans Examples.fingerprint "3d_fullres"
       = Ok params.
Proof.
  split.
  - eapply eq_trans.
    + eapply (ct_statistics_validation
                Examples.plans Examples.partial_fingerprint "3d_fullres");
        reflexivity.
    + reflexivity.
  - eexists. eapply eq_trans.
    + eapply (ct_statistics_validation
                Examples.plans Examples.fingerprint "3d_fullres");
        reflexivity.
    + reflexivity.
Defined.

(** C9. In a returned record the field [original_median_shape] is the
    first element of the fingerprint's [shapes_after_crop] when that entry
    is a non-empty list, and the empty list when the entry is absent or is
    the empty list; the fingerprint of a returned record is a dict.  The
    remaining recorded shapes play no part, so the field is not a median
    over them. *)
Theorem original_median_shape_is_first_shape
  (plans fingerprint : json) (configuration : string) (params : dict) :
  extract_preprocessing_params plans fingerprint configuration = Ok params ->
  exists fd,
    fingerprint = JObj fd /\
    (forall first rest,
       lookup "shapes_after_crop" fd = Some (JList (first :: rest)) ->
       lookup "original_median_shape" params = Some first) /\
    (lookup "shapes_after_crop" fd = None \/
     lookup "shapes_after_crop" fd = Some (JList []) ->
     lookup "original_median_shape" params = Some (JList [])).
Proof.
  intros H.
  apply extract_ok_inv in H.
  destruct H as [configurations [config [_ [_ [_ [Hb _]]]]]].
  apply build_params_shape in Hb.
  destruct Hb as (v1 & v2 & v3 & v4 & v5 & v6 & v7 & v8 & v9 & v10 & v11
                  & v12 & median & Hm & _ & ->).
  unfold original_median_shape in Hm.
  destruct fingerprint as [| | | | | | fd]; try discriminate Hm.
  exists fd. split; [reflexivity |]. simpl in Hm. split.
  - intros first rest Hl. rewrite Hl in Hm. simpl in Hm.
    injection Hm as <-. reflexivity.
  - intros [Hl | Hl]; rewrite Hl in Hm; simpl in Hm;
      injection Hm as <-; reflexivity.
Qed.

Lemma original_median_shape_is_first_shape_witness :
  exists params,
    extract_preprocessing_params Examples.plans Examples.fingerprint "3d_fullres"
    = Ok params /\
    lookup "original_median_shape" params = Some (JList [JInt 1; JInt 1; JInt 1]).
Proof.
  destruct (extract_preprocessing_params
              Examples.plans Examples.fingerprint "3d_fullres")
    as [params | e] eqn:H.
  - exists params. split; [reflexivity |].
    destruct (original_median_shape_is_first_shape _ _ _ _ H)
      as [fd [Hfd [Hfirst _]]].
    injection Hfd as <-.
    exact (Hfirst _ _ eq_refl).
  - discriminate H.
Defined.

(** C10. In a returned record the field [anisotropy_threshold] is the
    float 3.0, whatever the plan, the fingerprint and the configuration
    name are. *)
Theorem anisotropy_threshold_is_constant
  (plans fingerprint : json) (configuration : string) (params : dict) :
  extract_preprocessing_params plans fingerprint configuration = Ok params ->
  lookup "anisotropy_threshold" params = Some (JFloat 3%Q).
Proof.
  intros H.
  apply extract_ok_inv in H.
  destruct H as [configurations [config [_ [_ [_ [Hb _]]]]]].
  apply build_params_shape in Hb.
  destruct Hb as (v1 & v2 & v3 & v4 & v5 & v6 & v7 & v8 & v9 & v10 & v11
                  & v12 & median & _ & _ & ->).
  reflexivity.
Qed.

Lemma anisotropy_threshold_is_constant_witness :
  exists params,
    extract_preprocessing_params Examples.plans Examples.fingerprint "3d_fullres"
    = Ok params /\
    lookup "anisotropy_threshold" params = Some (JFloat 3%Q).
Proof.
  destruct (extract_preprocessing_params
              Examples.plans Examples.fingerprint "3d_fullres")
    as [params | e] eqn:H.
  - exists params. split; [reflexivity |].
    exact (anisotropy_threshold_is_constant _ _ _ _ H).
  - discriminate H.
Defined.

End ResolverClaims.

(** * Properties of the arrays *)

Section NdarrayFacts.

Context {A : Type}.

Lemma map_seq_nth {T : Type} (f : nat -> T) (l : list T) (d : T) :
  (forall i, i < length l -> f i = nth i l d) ->
  map f (seq 0 (length l)) = l.
Proof.
  intros H.
  apply nth_ext with (d := f 0) (d' := d).
  - rewrite length_map, length_seq. reflexivity.
  - intros n Hn. rewrite length_map, length_seq in Hn.
    rewrite map_nth, seq_nth by exact Hn. apply H, Hn.
Qed.

Lemma nth_map_seq {T : Type} (f : nat -> T) (n i : nat) (d : T) :
  i < n -> nth i (map f (seq 0 n)) d = f i.
Proof.
  intros Hi.
  rewrite nth_indep with (d' := f 0) by (rewrite length_map, length_seq; exact Hi).
  rewrite map_nth, seq_nth by exact Hi. reflexivity.
Qed.

Lemma shape_tabulate (s : vec3 nat) (f : nat -> nat -> nat -> A) :
  shape (tabulate s f) = s.
Proof.
  destruct s as [[n0 n1] n2]. reflexivity.
Qed.

Lemma wf_tabulate (s : vec3 nat) (f : nat -> nat -> nat -> A) :
  wf (tabulate s f).
Proof.
  destruct s as [[n0 n1] n2]. unfold wf. simpl. split.
  - rewrite length_map, length_seq. reflexivity.
  - apply Forall_forall. intros plane Hp.
    apply in_map_iff in Hp. destruct Hp as [i [<- _]]. split.
    + rewrite length_map, length_seq. reflexivity.
    + apply Forall_forall. intros row Hr.
      apply in_map_iff in Hr. destruct Hr as [j [<- _]].
      rewrite length_map, length_seq. reflexivity.
Qed.

Lemma sample_tabulate (d : A) (n0 n1 n2 : nat) (f : nat -> nat -> nat -> A)
  (i j k : nat) :
  i < n0 -> j < n1 -> k < n2 ->
  sample d (tabulate (n0, n1, n2) f) i j k = f i j k.
Proof.
  intros Hi Hj Hk. unfold sample. simpl.
  rewrite (nth_map_seq _ n0 i []) by exact Hi.
  rewrite (nth_map_seq _ n1 j []) by exact Hj.
  rewrite (nth_map_seq _ n2 k d) by exact Hk.
  reflexivity.
Qed.

Lemma tabulate_ext (n0 n1 n2 : nat) (f g : nat -> nat -> nat -> A) :
  (forall i j k, i < n0 -> j < n1 -> k < n2 -> f i j k = g i j k) ->
  tabulate (n0, n1, n2) f = tabulate (n0, n1, n2) g.
Proof.
  intros H. unfold tabulate. f_equal.
  apply map_ext_in. intros i Hi. apply in_seq in Hi.
  apply map_ext_in. intros j Hj. apply in_seq in Hj.
  apply map_ext_in. intros k Hk. apply in_seq in Hk.
  apply H; lia.
Qed.

(** A well-formed array is the table of its samples. *)
Lemma tabulate_sample (d : A) (a : ndarray A) :
  wf a -> tabulate (shape a) (sample d a) = a.
Proof.
  destruct a as [[[n0 n1] n2] l]. unfold wf, sample. simpl.
  intros [Hlen Hall]. f_equal. subst n0.
  apply map_seq_nth with (d := []). intros i Hi.
  rewrite Forall_forall in Hall.
  destruct (Hall (nth i l []) (nth_In l [] Hi)) as [Hp Hrows].
  rewrite <- Hp.
  apply map_seq_nth with (d := []). intros j Hj.
  rewrite Forall_forall in Hrows.
  rewrite <- (Hrows (nth j (nth i l []) []) (nth_In _ [] Hj)).
  apply map_seq_nth with (d := d). intros k Hk. reflexivity.
Qed.

Lemma sample_amap {B : Type} (f : A -> B) (d : A) (a : ndarray A) (i j k : nat) :
  sample (f d) (amap f a) i j k = f (sample d a i j k).
Proof.
  unfold sample, amap. simpl.
  change (@nil (list B)) with (map (map f) (@nil (list A))).
  rewrite map_nth.
  change (@nil B) with (map f (@nil A)).
  rewrite map_nth. rewrite map_nth. reflexivity.
Qed.

Lemma wf_amap {B : Type} (f : A -> B) (a : ndarray A) :
  wf a -> wf (amap f a).
Proof.
  destruct a as [[[n0 n1] n2] l]. unfold wf, amap. simpl.
  intros [Hlen Hall]. split.
  - rewrite length_map. exact Hlen.
  - apply Forall_map. eapply Forall_impl; [| exact Hall].
    intros plane [Hp Hrows]. split.
    + rewrite length_map. exact Hp.
    + apply Forall_map. eapply Forall_impl; [| exact Hrows].
      intros row Hr. rewrite length_map. exact Hr.
Qed.

End NdarrayFacts.

(** * Properties of the normalization stage *)

Section NormalizationFacts.

Import Fixtures.

Lemma Qltb_true (x y : Q) : Qltb x y = true <-> (x < y)%Q.
Proof.
  unfold Qltb. rewrite negb_true_iff.
  split; intros H.
  - apply Qnot_le_lt. intros Hle. apply Qle_bool_iff in Hle. congruence.
  - destruct (Qle_bool y x) eqn:E; [| reflexivity].
    apply Qle_bool_iff in E. exfalso. exact (Qlt_not_le _ _ H E).
Qed.

Lemma Qltb_false (x y : Q) : Qltb x y = false <-> (y <= x)%Q.
Proof.
  unfold Qltb. rewrite negb_false_iff. apply Qle_bool_iff.
Qed.

(** The clip keeps a sample that lies between the bounds, the bounds
    included. *)
Lemma np_clip_inside (x lower upper : Q) :
  (lower <= x)%Q -> (x <= upper)%Q -> np_clip x lower upper = x.
Proof.
  intros Hl Hu. unfold np_clip, np_maximum, np_minimum.
  apply Qltb_false in Hl. rewrite Hl.
  apply Qltb_false in Hu. rewrite Hu. reflexivity.
Qed.

Lemma np_clip_below (x lower upper : Q) :
  (x < lower)%Q -> (lower <= upper)%Q -> np_clip x lower upper = lower.
Proof.
  intros Hl Hu. unfold np_clip, np_maximum, np_minimum.
  apply Qltb_true in Hl. rewrite Hl.
  apply Qltb_false in Hu. rewrite Hu. reflexivity.
Qed.

Lemma np_clip_above (x lower upper : Q) :
  (upper < x)%Q -> np_clip x lower upper = upper.
Proof.
  intros Hu. unfold np_clip, np_maximum, np_minimum.
  destruct (Qltb x lower) eqn:E.
  - apply Qltb_true in E.
    assert (H : (upper < lower)%Q) by (eapply Qlt_trans; eassumption).
    apply Qltb_true in H. rewrite H. reflexivity.
  - apply Qltb_true in Hu. rewrite Hu. reflexivity.
Qed.

Lemma py_max_floor (std : Q) :
  (std < eps)%Q -> py_max std eps = eps.
Proof.
  intros H. unfold py_max. apply Qltb_true in H. rewrite H. reflexivity.
Qed.

Lemma py_max_keeps (std : Q) :
  (eps <= std)%Q -> py_max std eps = std.
Proof.
  intros H. unfold py_max. apply Qltb_false in H. rewrite H. reflexivity.
Qed.

Lemma amap_amap {A B C} (f : A -> B) (g : B -> C) (a : ndarray A) :
  amap g (amap f a) = amap (fun x => g (f x)) a.
Proof.
  unfold amap. simpl. f_equal.
  rewrite map_map. apply map_ext. intros plane.
  rewrite map_map. apply map_ext. intros row.
  apply map_map.
Qed.

(** The two statements of the CT branch, sample by sample. *)
Lemma ct_normalize_samples (mean std lower upper : Q) (current : ndarray Q) :
  ct_normalize mean std lower upper current
  = amap (fun x => ((np_clip x lower upper - mean) / py_max std (1 # 100000000))%Q)
         current.
Proof.
  unfold ct_normalize. rewrite amap_amap. reflexivity.
Qed.

End NormalizationFacts.

Section NormalizationClaims.

Import Fixtures.

(** C2. When the scheme list contains "CTNormalization" and the statistics
    of channel "0" give mean, std, percentile_00_5 and percentile_99_5,
    the normalization stage of both variants returns the array whose
    every sample is [(clip(x, percentile_00_5, percentile_99_5) - mean) /
    max(std, 1e-8)] of the input sample [x] at the same place.  The clip
    keeps a sample on or between the bounds and moves any other to the
    nearer bound; the divisor is [std] unless [std] is below 1e-8, and then
    it is 1e-8 (the rational 1/100000000). *)
Theorem ct_normalization_formula
  (schemes : list string) (fp : fingerprint)
  (channels : tdict (tdict Q)) (props : tdict Q)
  (mean std lower upper : Q) (current : ndarray Q) :
  str_in "CTNormalization" schemes = true ->
  foreground_intensity_properties_per_channel fp = Some channels ->
  tlookup "0" channels = Some props ->
  tlookup "mean" props = Some mean ->
  tlookup "std" props = Some std ->
  tlookup "percentile_00_5" props = Some lower ->
  tlookup "percentile_99_5" props = Some upper ->
  let formula :=
    fun x => ((np_clip x lower upper - mean) / py_max std (1 # 100000000))%Q in
  normalization_stage schemes fp current = Ok (amap formula current)
  /\ (forall p,
        params_normalization_schemes p = Some schemes ->
        foreground_intensity_properties p = Some channels ->
        synthetic_normalization_stage p current = Ok (amap formula current))
  /\ (forall i j k,
        sample (formula 0%Q) (amap formula current) i j k
        = formula (sample 0%Q current i j k))
  /\ (forall x, (lower <= x)%Q -> (x <= upper)%Q -> np_clip x lower upper = x)
  /\ (forall x, (x < lower)%Q -> (lower <= upper)%Q -> np_clip x lower upper = lower)
  /\ (forall x, (upper < x)%Q -> np_clip x lower upper = upper)
  /\ ((std < 1 # 100000000)%Q -> py_max std (1 # 100000000) = (1 # 100000000)%Q)
  /\ ((1 # 100000000 <= std)%Q -> py_max std (1 # 100000000) = std).
Proof.
  intros Hct Hfp H0 Hmean Hstd Hlower Hupper formula.
  repeat split.
  - unfold normalization_stage, item, require.
    rewrite Hct, Hfp. simpl. rewrite H0. simpl.
    rewrite Hmean, Hstd, Hlower, Hupper. simpl.
    rewrite ct_normalize_samples. reflexivity.
  - intros p Hs Hf. unfold synthetic_normalization_stage, require, get_or.
    rewrite Hs, Hf. simpl. rewrite Hct. simpl. rewrite H0.
    rewrite Hmean, Hstd, Hlower, Hupper.
    rewrite ct_normalize_samples. reflexivity.
  - intros i j k. apply sample_amap.
  - intros x. apply np_clip_inside.
  - intros x. apply np_clip_below.
  - intros x. apply np_clip_above.
  - apply py_max_floor.
  - apply py_max_keeps.
Qed.

Lemma ct_normalization_formula_witness :
  normalization_stage ["CTNormalization"] Examples.fixture_fingerprint Examples.volume
  = Ok (amap (fun x => ((np_clip x (- (1024 # 1)) (1500 # 1) - (1005 # 10))
                        / py_max (502 # 10) (1 # 100000000))%Q)
             Examples.volume).
Proof.
  exact (proj1 (ct_normalization_formula
                  ["CTNormalization"] Examples.fixture_fingerprint
                  [("0", Examples.ct_props)] Examples.ct_props
                  (1005 # 10) (502 # 10) (- (1024 # 1)) (1500 # 1) Examples.volume
                  eq_refl eq_refl eq_refl eq_refl eq_refl eq_refl eq_refl)).
Defined.

(** The end-to-end scenario on the example volume: the sample 2000 is
    clipped to 1500 before it is shifted and scaled. *)
Example ct_normalization_on_example :
  exists out,
    normalization_stage ["CTNormalization"] Examples.fixture_fingerprint
      Examples.volume = Ok out /\
    (sample 0 out 0 2 2 == (1500 - (1005 # 10)) / (502 # 10))%Q /\
    (sample 0 out 0 1 1 == (1 - (1005 # 10)) / (502 # 10))%Q.
Proof.
  eexists. split; [reflexivity |]. split; reflexivity.
Qed.

(** With missing statistics the synthetic variant falls back on the
    defaults written in the source. *)
Lemma synthetic_normalization_defaults (p : params) (current : ndarray Q) :
  params_normalization_schemes p = Some ["CTNormalization"] ->
  foreground_intensity_properties p = Some [] ->
  synthetic_normalization_stage p current
  = Ok (ct_normalize (1005 # 10) (502 # 10) (- (1024 # 1)) (1500 # 1) current).
Proof.
  intros Hs Hf. unfold synthetic_normalization_stage. rewrite Hs, Hf. reflexivity.
Qed.

(** C6, as stated, fails: a scheme list whose only identifier is unknown
    makes the stage return the array unchanged, with no error. *)
Lemma unknown_scheme_is_not_rejected :
  normalization_stage ["FooNormalization"] Examples.fixture_fingerprint
    Examples.volume = Ok Examples.volume
  /\ ~ (exists e,
          normalization_stage ["FooNormalization"] Examples.fixture_fingerprint
            Examples.volume = Err e).
Proof.
  split; [reflexivity |].
  intros [e H]. discriminate H.
Qed.

(** C6, amended.  The stage only asks whether "CTNormalization" is in the
    scheme list: for a list without it, whatever identifiers the list
    holds, both variants return the array unchanged and raise nothing. *)
Theorem schemes_other_than_ct_leave_array_unchanged
  (schemes : list string) (fp : fingerprint) (p : params) (current : ndarray Q) :
  str_in "CTNormalization" schemes = false ->
  normalization_stage schemes fp current = Ok current
  /\ (params_normalization_schemes p = Some schemes ->
      synthetic_normalization_stage p current = Ok current).
Proof.
  intros H. split.
  - unfold normalization_stage. rewrite H. reflexivity.
  - intros Hs. unfold synthetic_normalization_stage. rewrite Hs. simpl.
    rewrite H. reflexivity.
Qed.

Lemma schemes_other_than_ct_leave_array_unchanged_witness :
  normalization_stage ["ZScoreNormalization"; "BarNormalization"]
    Examples.fixture_fingerprint Examples.thin_volume = Ok Examples.thin_volume.
Proof.
  exact (proj1 (schemes_other_than_ct_leave_array_unchanged
                  ["ZScoreNormalization"; "BarNormalization"]
                  Examples.fixture_fingerprint Examples.synthetic_params
                  Examples.thin_volume eq_refl)).
Defined.

End NormalizationClaims.

(** * Properties of the resampling stage *)

Section ResamplingFacts.

Import Fixtures.

Lemma np_round_compat (q q' : Q) : (q == q')%Q -> np_round q = np_round q'.
Proof.
  intros H. unfold np_round.
  assert (Hf : Qfloor q = Qfloor q') by (apply Qfloor_comp; exact H).
  rewrite <- Hf.
  assert (Hc : ((q - inject_Z (Qfloor q) ?= 1 # 2) = (q' - inject_Z (Qfloor q) ?= 1 # 2))%Q).
  { apply Qcompare_comp;
      [unfold Qminus; apply Qplus_comp; [exact H | reflexivity] | reflexivity]. }
  rewrite <- Hc. reflexivity.
Qed.


(** On a tie [np_round] picks the even neighbour. *)
Example np_round_ties :
  map np_round [5 # 10; 15 # 10; 25 # 10; - (5 # 10); - (15 # 10)]%Q
  = [0; 2; 2; 0; -2]%Z.
Proof. reflexivity. Qed.

(** The target shape on three-element spacings, axis by axis. *)
Lemma compute_target_shape_axes (n0 n1 n2 : nat) (c0 c1 c2 t0 t1 t2 : Q) :
  compute_target_shape (n0, n1, n2) [c0; c1; c2] [t0; t1; t2]
  = Ok [ np_round (inject_Z (Z.of_nat n0) * (c0 / t0));
         np_round (inject_Z (Z.of_nat n1) * (c1 / t1));
         np_round (inject_Z (Z.of_nat n2) * (c2 / t2)) ].
Proof. reflexivity. Qed.


End ResamplingFacts.

Section ResamplingClaims.

Import Fixtures.



(** C8, as stated, fails.  For the volume of shape (1, 2, 2) with current
    spacing (0.4, 1, 1) and target spacing (1, 1, 1) the rounded target
    shape is (0, 2, 2); the stage hands that shape to the resampling
    function, whichever it is, and returns what the function returns: with
    a function that does not fail the stage does not fail. *)
Lemma degenerate_target_is_not_rejected :
  compute_target_shape (shape Examples.thin_volume) [4 # 10; 1; 1]%Q [1; 1; 1]%Q
  = Ok [0; 2; 2]%Z
  /\ (forall resample,
        resample_stage resample Examples.thin_volume [4 # 10; 1; 1]%Q [1; 1; 1]%Q None
        = (resampled <- resample [Examples.thin_volume] [0; 2; 2]%Z
                          [4 # 10; 1; 1]%Q [1; 1; 1]%Q default_kwargs ;;
           match resampled with
           | first :: _ => Ok first
           | [] => Err IndexError
           end))
  /\ ~ (forall resample, exists e,
          resample_stage resample Examples.thin_volume
            [4 # 10; 1; 1]%Q [1; 1; 1]%Q None = Err e).
Proof.
  split; [reflexivity |]. split; [reflexivity |].
  intros H. destruct (H Examples.pass_through_resampler) as [e He].
  discriminate He.
Qed.

(** C8, amended.  The stage does not inspect the rounded target shape:
    whenever the shape is computed, positive or not, the stage calls the
    resampling function with the array under a channel axis, that shape,
    both spacings and the keyword arguments (the defaults when the
    configuration gives none), and its outcome is the first channel of
    what the function returns, or the function's error. *)
Theorem resample_stage_forwards_target_shape
  (resample : list (ndarray Q) -> list Z -> list Q -> list Q -> kwargs ->
              result (list (ndarray Q)))
  (current : ndarray Q) (current_spacing target_spacing : list Q)
  (kw : option kwargs) (target_shape : list Z) :
  compute_target_shape (shape current) current_spacing target_spacing
  = Ok target_shape ->
  resample_stage resample current current_spacing target_spacing kw
  = (resampled <- resample [current] target_shape current_spacing target_spacing
                    (or_default kw default_kwargs) ;;
     match resampled with
     | first :: _ => Ok first
     | [] => Err IndexError
     end).
Proof.
  intros H. unfold resample_stage. rewrite H. reflexivity.
Qed.

Lemma resample_stage_forwards_target_shape_witness :
  resample_stage Examples.pass_through_resampler Examples.volume
    [1; 1; 1]%Q [1; 1; 4]%Q None
  = Ok Examples.volume.
Proof.
  rewrite (resample_stage_forwards_target_shape
             Examples.pass_through_resampler Examples.volume
             [1; 1; 1]%Q [1; 1; 4]%Q None [2; 3; 1]%Z eq_refl).
  reflexivity.
Defined.

End ResamplingClaims.

(** * Properties of the transpose stage *)

Section TransposeFacts.

Import Fixtures.

(** The six permutations of the axes. *)
Lemma is_permutation_cases (p : list Z) :
  is_permutation p = true ->
  In p [ [0; 1; 2]; [0; 2; 1]; [1; 0; 2]; [1; 2; 0]; [2; 0; 1]; [2; 1; 0] ]%Z.
Proof.
  unfold is_permutation.
  destruct p as [| x [| y [| z [| w p]]]]; try discriminate.
  cbn [length Nat.eqb andb forallb existsb].
  rewrite !andb_true_iff, !orb_true_iff, !Z.eqb_eq.
  intros [H0 [H1 [H2 _]]].
  destruct H0 as [H0 | [H0 | [H0 | H0]]]; try discriminate H0;
  destruct H1 as [H1 | [H1 | [H1 | H1]]]; try discriminate H1;
  destruct H2 as [H2 | [H2 | [H2 | H2]]]; try discriminate H2;
  subst; try discriminate; simpl; tauto.
Qed.

Lemma transpose_stage_axes (a : ndarray Q) (sp tsp : list Q) (x y z : Z)
  (p0 p1 p2 : nat) :
  check_axes [] [x; y; z] = Ok [p0; p1; p2] ->
  fancy_index 0%Q sp [x; y; z] = Ok tsp ->
  transpose_stage a sp [x; y; z] = Ok (permute_axes 0%Q a p0 p1 p2, tsp).
Proof.
  intros Hc Hf. unfold transpose_stage, np_transpose.
  rewrite Hc. cbn [bind]. rewrite Hf. reflexivity.
Qed.

End TransposeFacts.

Section TransposeClaims.

Import Fixtures.

(** Undoing a permutation of the axes on a well-formed array. *)
Ltac permute_back Hwf :=
  match goal with
  | |- permute_axes ?d (permute_axes ?d ?a _ _ _) _ _ _ = ?a =>
      destruct a as [[[n0 n1] n2] l];
      unfold permute_axes; cbn [shape vnth];
      etransitivity; [| exact (tabulate_sample d _ Hwf)];
      cbn [shape];
      apply tabulate_ext; intros i j k Hi Hj Hk;
      cbn [source_index Nat.eqb];
      rewrite sample_tabulate by assumption;
      reflexivity
  end.

(** C7. For a well-formed volume with a three-element spacing and two
    permutations of the axes 0, 1, 2 that undo each other, the transpose
    stage with the forward permutation succeeds, and the transpose stage
    with the backward permutation applied to its result returns the
    original array and the original spacing. *)
Theorem transpose_round_trip
  (a : ndarray Q) (spacing : list Q) (forward backward : list Z) :
  wf a ->
  length spacing = 3 ->
  is_permutation forward = true ->
  is_permutation backward = true ->
  mutual_inverses forward backward = true ->
  exists transposed transposed_spacing,
    transpose_stage a spacing forward = Ok (transposed, transposed_spacing) /\
    transpose_stage transposed transposed_spacing backward = Ok (a, spacing).
Proof.
  intros Hwf Hlen Hf Hb Hinv.
  destruct spacing as [| s0 [| s1 [| s2 [| s3 sp]]]]; try discriminate Hlen.
  apply is_permutation_cases in Hf. apply is_permutation_cases in Hb.
  cbn [In] in Hf, Hb.
  repeat (destruct Hf as [Hf | Hf]; [ symmetry in Hf | ]); try contradiction;
  repeat (destruct Hb as [Hb | Hb]; [ symmetry in Hb | ]); try contradiction;
  subst forward backward;
  try (vm_compute in Hinv; discriminate Hinv);
  (do 2 eexists; split;
   [ eapply transpose_stage_axes; reflexivity
   | erewrite transpose_stage_axes by reflexivity;
     f_equal; f_equal; permute_back Hwf ]).
Qed.

Lemma transpose_round_trip_witness :
  exists transposed transposed_spacing,
    transpose_stage Examples.volume [25 # 10; 7 # 10; 8 # 10]%Q [2; 0; 1]%Z
    = Ok (transposed, transposed_spacing) /\
    transpose_stage transposed transposed_spacing [1; 2; 0]%Z
    = Ok (Examples.volume, [25 # 10; 7 # 10; 8 # 10]%Q).
Proof.
  apply (transpose_round_trip Examples.volume [25 # 10; 7 # 10; 8 # 10]%Q
           [2; 0; 1]%Z [1; 2; 0]%Z).
  - unfold wf. simpl. repeat constructor.
  - reflexivity.
  - reflexivity.
  - reflexivity.
  - reflexivity.
Defined.

(** The forward transpose of the example: the shape and the spacing are
    reordered alike. *)
Example transpose_on_example :
  exists transposed,
    transpose_stage Examples.volume [25 # 10; 7 # 10; 8 # 10]%Q [2; 0; 1]%Z
    = Ok (transposed, [8 # 10; 25 # 10; 7 # 10]%Q) /\
    shape transposed = (4, 2, 3) /\
    sample 0%Q transposed 2 0 2 = sample 0%Q Examples.volume 0 2 2.
Proof.
  eexists. split; [reflexivity |]. split; reflexivity.
Qed.

End TransposeClaims.

(** * Properties of the crop stage *)

Section CropFacts.

Import Fixtures.

Lemma last_In {T : Type} (l : list T) (d : T) : l <> [] -> In (last l d) l.
Proof.
  induction l as [| x l IH]; intros Hne.
  - contradiction.
  - destruct l as [| y l].
    + left. reflexivity.
    + right. apply IH. discriminate.
Qed.

(** The indices kept from a range come in increasing order: the head is
    the least and the last the greatest. *)
Lemma filter_seq_bounds (f : nat -> bool) (n s first : nat) (rest : list nat) :
  filter f (seq s n) = first :: rest ->
  forall x, In x (first :: rest) ->
            first <= x /\ x <= last (first :: rest) 0.
Proof.
  revert s first rest.
  induction n as [| n IH]; intros s first rest Hf x Hx.
  - discriminate Hf.
  - cbn [seq filter] in Hf. destruct (f s) eqn:Hs.
    + injection Hf as <- Hrest.
      assert (Hge : forall y, In y rest -> S s <= y).
      { intros y Hy. rewrite <- Hrest in Hy.
        apply filter_In in Hy. destruct Hy as [Hy _].
        apply in_seq in Hy. lia. }
      destruct rest as [| r rest'].
      * destruct Hx as [<- | []]. simpl. lia.
      * change (last (s :: r :: rest') 0) with (last (r :: rest') 0).
        pose proof (IH (S s) r rest' Hrest) as Hb.
        destruct Hx as [<- | Hx].
        -- split; [lia |].
           destruct (Hb r (or_introl eq_refl)) as [_ Hr].
           pose proof (Hge r (or_introl eq_refl)). lia.
        -- destruct (Hb x Hx) as [_ Hl]. pose proof (Hge x Hx). lia.
    + exact (IH (S s) first rest Hf x Hx).
Qed.

Lemma np_where_In (mask : list bool) (i : nat) :
  In i (np_where mask) <-> i < length mask /\ nth i mask false = true.
Proof.
  unfold np_where. rewrite filter_In, in_seq. simpl. intuition lia.
Qed.

Lemma other_axes_along (s : vec3 nat) (axis n p q : nat) :
  n < vnth s axis ->
  p < fst (other_axes s axis) ->
  q < snd (other_axes s axis) ->
  in_range s (along axis n p q) /\ vnth (along axis n p q) axis = n.
Proof.
  destruct s as [[n0 n1] n2].
  destruct axis as [| [| axis]]; simpl; intros; repeat split; assumption.
Qed.

Lemma along_of_index (s idx : vec3 nat) (axis : nat) :
  in_range s idx ->
  exists p q,
    vnth idx axis < vnth s axis /\
    p < fst (other_axes s axis) /\
    q < snd (other_axes s axis) /\
    along axis (vnth idx axis) p q = idx.
Proof.
  destruct s as [[n0 n1] n2]. destruct idx as [[i j] k].
  simpl. intros [Hi [Hj Hk]].
  destruct axis as [| [| axis]]; simpl.
  - exists j, k. repeat split; assumption.
  - exists i, k. repeat split; assumption.
  - exists i, j. repeat split; assumption.
Qed.

Lemma any_along_length (m : ndarray bool) (axis : nat) :
  length (any_along m axis) = vnth (shape m) axis.
Proof.
  unfold any_along. destruct (other_axes (shape m) axis) as [d1 d2].
  rewrite length_map, length_seq. reflexivity.
Qed.

(** The entry [n] of the reduced mask is true exactly when a sample with
    index [n] on the axis is. *)
Lemma any_along_nth (m : ndarray bool) (axis n : nat) :
  n < vnth (shape m) axis ->
  nth n (any_along m axis) false = true <->
  exists idx, in_range (shape m) idx /\ vnth idx axis = n /\
              sample_at false m idx = true.
Proof.
  intros Hn. unfold any_along.
  destruct (other_axes (shape m) axis) as [d1 d2] eqn:Ho.
  rewrite nth_map_seq by exact Hn.
  rewrite existsb_exists. split.
  - intros [p [Hp H]]. apply in_seq in Hp.
    apply existsb_exists in H. destruct H as [q [Hq H]]. apply in_seq in Hq.
    exists (along axis n p q).
    destruct (other_axes_along (shape m) axis n p q) as [Hr Hv];
      try (rewrite ?Ho; simpl; lia).
    repeat split; assumption.
  - intros [idx [Hr [Hv H]]].
    destruct (along_of_index (shape m) idx axis Hr) as [p [q [_ [Hp [Hq Ha]]]]].
    rewrite Ho in Hp, Hq. simpl in Hp, Hq. rewrite Hv in Ha.
    exists p. split; [apply in_seq; lia |].
    apply existsb_exists. exists q. split; [apply in_seq; lia |].
    rewrite Ha. exact H.
Qed.

(** The interval of one axis, when the mask has a true sample. *)
Lemma axis_bbox_spec (m : ndarray bool) (axis : nat) (idx0 : vec3 nat) :
  in_range (shape m) idx0 ->
  sample_at false m idx0 = true ->
  exists lo hi,
    axis_bbox m axis = (lo, hi) /\
    lo < hi /\ hi <= vnth (shape m) axis /\
    (forall idx, in_range (shape m) idx -> sample_at false m idx = true ->
                 lo <= vnth idx axis /\ vnth idx axis < hi) /\
    (exists idx, in_range (shape m) idx /\ sample_at false m idx = true /\
                 vnth idx axis = lo) /\
    (exists idx, in_range (shape m) idx /\ sample_at false m idx = true /\
                 vnth idx axis + 1 = hi).
Proof.
  intros Hr0 H0.
  assert (Hhit : forall idx, in_range (shape m) idx ->
                             sample_at false m idx = true ->
                             In (vnth idx axis) (np_where (any_along m axis))).
  { intros idx Hr H. apply np_where_In.
    destruct (along_of_index (shape m) idx axis Hr) as [p [q [Hlt _]]].
    rewrite any_along_length. split; [exact Hlt |].
    apply any_along_nth; [exact Hlt |].
    exists idx. repeat split; assumption. }
  assert (Hback : forall n, In n (np_where (any_along m axis)) ->
                            n < vnth (shape m) axis /\
                            exists idx, in_range (shape m) idx /\
                                        sample_at false m idx = true /\
                                        vnth idx axis = n).
  { intros n Hn. apply np_where_In in Hn. rewrite any_along_length in Hn.
    destruct Hn as [Hlt Hn]. split; [exact Hlt |].
    apply any_along_nth in Hn; [| exact Hlt].
    destruct Hn as [idx [Hr [Hv H]]]. exists idx. repeat split; assumption. }
  unfold axis_bbox.
  destruct (np_where (any_along m axis)) as [| first rest] eqn:Hw.
  - exfalso. exact (Hhit idx0 Hr0 H0).
  - pose proof (filter_seq_bounds _ _ _ _ _ Hw) as Hb.
    assert (Hlast : In (last (first :: rest) 0) (first :: rest))
      by (apply last_In; discriminate).
    exists first, (last (first :: rest) 0 + 1).
    split; [reflexivity |].
    destruct (Hb _ Hlast) as [Hfl _].
    destruct (Hback _ Hlast) as [Hlt [idxl [Hrl [Hl Hvl]]]].
    destruct (Hback first (or_introl eq_refl)) as [_ [idxf [Hrf [Hf Hvf]]]].
    split; [lia |]. split; [lia |]. split; [| split].
    + intros idx Hr H.
      destruct (Hb _ (Hhit idx Hr H)) as [Hge Hle]. lia.
    + exists idxf. repeat split; assumption.
    + exists idxl. repeat split; try assumption. lia.
Qed.

End CropFacts.

Section CropStage.

Import Fixtures.

(** [m.any()] is true exactly when some sample is. *)
Lemma any_true_iff (m : ndarray bool) :
  wf m ->
  any m = true <->
  exists idx, in_range (shape m) idx /\ sample_at false m idx = true.
Proof.
  destruct m as [[[n0 n1] n2] l]. unfold wf, any, sample_at, sample. simpl.
  intros [Hlen Hall]. rewrite Forall_forall in Hall.
  rewrite existsb_exists. split.
  - intros [plane [Hp H]].
    apply existsb_exists in H. destruct H as [row [Hr H]].
    apply existsb_exists in H. destruct H as [b [Hb H]]. subst b.
    destruct (Hall plane Hp) as [Hpl Hrows]. rewrite Forall_forall in Hrows.
    pose proof (Hrows row Hr) as Hrl.
    apply (In_nth _ _ []) in Hp. destruct Hp as [i [Hi Hp]].
    apply (In_nth _ _ []) in Hr. destruct Hr as [j [Hj Hr]].
    apply (In_nth _ _ false) in Hb. destruct Hb as [k [Hk Hb]].
    exists (i, j, k). rewrite Hp, Hr, Hb.
    repeat split; lia.
  - intros [[[i j] k] [[Hi [Hj Hk]] H]].
    assert (Hp : In (nth i l []) l) by (apply nth_In; lia).
    destruct (Hall _ Hp) as [Hpl Hrows]. rewrite Forall_forall in Hrows.
    assert (Hr : In (nth j (nth i l []) []) (nth i l [])) by (apply nth_In; lia).
    pose proof (Hrows _ Hr) as Hrl.
    exists (nth i l []). split; [exact Hp |].
    apply existsb_exists. exists (nth j (nth i l []) []). split; [exact Hr |].
    apply existsb_exists. exists true. split; [| reflexivity].
    rewrite <- H. apply nth_In. lia.
Qed.

Lemma sample_nonzero_mask (a : ndarray Q) (idx : vec3 nat) :
  sample_at false (nonzero_mask a) idx = nonzero (sample_at 0%Q a idx).
Proof.
  destruct idx as [[i j] k]. exact (sample_amap nonzero 0%Q a i j k).
Qed.

Lemma slice3_inside {A : Type} (d : A) (a : ndarray A) (box : vec3 (nat * nat)) :
  inside_box box (full_extent (shape a)) ->
  (forall axis, axis < 3 -> fst (vnth box axis) <= snd (vnth box axis)) ->
  slice3 d a box
  = tabulate (box_shape box)
      (fun i j k => sample_at d a (i + fst (vnth box 0), j + fst (vnth box 1),
                                   k + fst (vnth box 2))).
Proof.
  destruct a as [[[n0 n1] n2] l].
  destruct box as [[[lo0 hi0] [lo1 hi1]] [lo2 hi2]].
  intros Hin Hle.
  pose proof (Hin 0 ltac:(lia)) as [_ H0]. pose proof (Hle 0 ltac:(lia)) as L0.
  pose proof (Hin 1 ltac:(lia)) as [_ H1]. pose proof (Hle 1 ltac:(lia)) as L1.
  pose proof (Hin 2 ltac:(lia)) as [_ H2]. pose proof (Hle 2 ltac:(lia)) as L2.
  simpl in H0, H1, H2, L0, L1, L2.
  unfold slice3, slice_bounds. cbn [shape fst snd vnth box_shape sample_at].
  rewrite !Nat.min_l by lia.
  apply tabulate_ext. intros i j k _ _ _.
  f_equal; lia.
Qed.

End CropStage.

Section CropClaims.

Import Fixtures.

Lemma in_box_coordinates (b0 b1 b2 : nat * nat) (i j k : nat) :
  in_box (b0, b1, b2) (i, j, k) <->
  (fst b0 <= i /\ i < snd b0) /\ (fst b1 <= j /\ j < snd b1) /\
  (fst b2 <= k /\ k < snd b2).
Proof.
  unfold in_box. split.
  - intros H. repeat split;
      first [ apply (H 0); lia | apply (H 1); lia | apply (H 2); lia ].
  - intros [H0 [H1 H2]] axis Hax.
    destruct axis as [| [| [| axis]]]; simpl; try lia.
Qed.

(** The samples of the slice taken by the crop. *)
Lemma crop_samples (a : ndarray Q) (box : vec3 (nat * nat)) (idx : vec3 nat) :
  inside_box box (full_extent (shape a)) ->
  in_box box idx ->
  in_range (shape (slice3 0%Q a box)) (shift box idx) /\
  sample_at 0%Q (slice3 0%Q a box) (shift box idx) = sample_at 0%Q a idx.
Proof.
  intros Hin Hidx.
  destruct box as [[b0 b1] b2]. destruct idx as [[i j] k].
  pose proof (proj1 (in_box_coordinates _ _ _ _ _ _) Hidx)
    as [[L0 U0] [[L1 U1] [L2 U2]]].
  rewrite slice3_inside.
  - rewrite shape_tabulate. cbn [box_shape shift in_range sample_at vnth].
    split; [lia |].
    rewrite sample_tabulate by lia.
    cbn [sample_at]. f_equal; lia.
  - exact Hin.
  - intros axis Hax. destruct axis as [| [| [| axis]]]; simpl; lia.
Qed.

(** C3. On a well-formed volume the crop stage is a total function.  When
    every sample is zero it returns the volume itself with the full extent
    of each axis as the box.  When some sample is nonzero it returns a box
    of intervals [lo, hi) that holds every nonzero sample, lies inside
    every box that does (so each interval runs from the first to one past
    the last index that carries a nonzero sample), lies inside the volume
    and has no empty interval; the cropped array has the shape of the box,
    and its sample at an index of the box, counted from the lower bounds,
    is the input's sample at that index, so that every nonzero sample of
    the input is a sample of the cropped array. *)
Theorem crop_stage_bounding_box (current : ndarray Q) :
  wf current ->
  ((forall idx, in_range (shape current) idx ->
                nonzero (sample_at 0%Q current idx) = false) ->
   crop_stage current = (current, full_extent (shape current)))
  /\
  (forall idx0, nonzero_at current idx0 ->
   exists cropped bbox,
     crop_stage current = (cropped, bbox) /\
     contains_nonzero current bbox /\
     (forall box, contains_nonzero current box -> inside_box bbox box) /\
     inside_box bbox (full_extent (shape current)) /\
     (forall axis, axis < 3 -> fst (vnth bbox axis) < snd (vnth bbox axis)) /\
     shape cropped = box_shape bbox /\
     wf cropped /\
     (forall idx, in_box bbox idx ->
                  sample_at 0%Q cropped (shift bbox idx) = sample_at 0%Q current idx) /\
     (forall idx, nonzero_at current idx -> nonzero_at cropped (shift bbox idx))).
Proof.
  intros Hwf.
  pose proof (wf_amap nonzero current Hwf) as Hwfm.
  fold (nonzero_mask current) in Hwfm.
  split.
  - intros Hz. unfold crop_stage.
    destruct (any (nonzero_mask current)) eqn:E; [| reflexivity].
    apply (any_true_iff _ Hwfm) in E. destruct E as [idx [Hr H]].
    rewrite sample_nonzero_mask in H. rewrite (Hz idx Hr) in H. discriminate H.
  - intros idx0 [Hr0 H0].
    assert (Hm0 : sample_at false (nonzero_mask current) idx0 = true)
      by (rewrite sample_nonzero_mask; exact H0).
    assert (Hany : any (nonzero_mask current) = true).
    { apply (any_true_iff _ Hwfm). exists idx0. split; assumption. }
    unfold crop_stage. rewrite Hany.
    destruct (axis_bbox_spec (nonzero_mask current) 0 idx0 Hr0 Hm0)
      as (lo0 & hi0 & B0 & N0 & I0 & C0 & F0 & L0).
    destruct (axis_bbox_spec (nonzero_mask current) 1 idx0 Hr0 Hm0)
      as (lo1 & hi1 & B1 & N1 & I1 & C1 & F1 & L1).
    destruct (axis_bbox_spec (nonzero_mask current) 2 idx0 Hr0 Hm0)
      as (lo2 & hi2 & B2 & N2 & I2 & C2 & F2 & L2).
    rewrite B0, B1, B2.
    change (shape (nonzero_mask current)) with (shape current) in *.
    set (bbox := ((lo0, hi0), (lo1, hi1), (lo2, hi2))).
    assert (Hcontains : contains_nonzero current bbox).
    { intros idx [Hr H] axis Hax.
      assert (Hm : sample_at false (nonzero_mask current) idx = true)
        by (rewrite sample_nonzero_mask; exact H).
      destruct axis as [| [| [| axis]]]; simpl; try lia.
      - exact (C0 idx Hr Hm).
      - exact (C1 idx Hr Hm).
      - exact (C2 idx Hr Hm). }
    assert (Hinside : inside_box bbox (full_extent (shape current))).
    { intros axis Hax. destruct (shape current) as [[n0 n1] n2].
      destruct axis as [| [| [| axis]]]; simpl in *; lia. }
    exists (slice3 0%Q current bbox), bbox.
    split; [reflexivity |]. split; [exact Hcontains |]. split; [| split; [exact Hinside |]].
    { intros box Hbox axis Hax.
      destruct F0 as (f0 & Rf0 & Sf0 & Vf0). destruct L0 as (l0 & Rl0 & Sl0 & Vl0).
      destruct F1 as (f1 & Rf1 & Sf1 & Vf1). destruct L1 as (l1 & Rl1 & Sl1 & Vl1).
      destruct F2 as (f2 & Rf2 & Sf2 & Vf2). destruct L2 as (l2 & Rl2 & Sl2 & Vl2).
      rewrite sample_nonzero_mask in Sf0, Sl0, Sf1, Sl1, Sf2, Sl2.
      destruct axis as [| [| [| axis]]]; simpl; try lia.
      - pose proof (Hbox f0 (conj Rf0 Sf0) 0 ltac:(lia)).
        pose proof (Hbox l0 (conj Rl0 Sl0) 0 ltac:(lia)). lia.
      - pose proof (Hbox f1 (conj Rf1 Sf1) 1 ltac:(lia)).
        pose proof (Hbox l1 (conj Rl1 Sl1) 1 ltac:(lia)). lia.
      - pose proof (Hbox f2 (conj Rf2 Sf2) 2 ltac:(lia)).
        pose proof (Hbox l2 (conj Rl2 Sl2) 2 ltac:(lia)). lia. }
    split.
    { intros axis Hax. destruct axis as [| [| [| axis]]]; simpl; lia. }
    assert (Hle : forall axis, axis < 3 ->
                               fst (vnth bbox axis) <= snd (vnth bbox axis)).
    { intros axis Hax. destruct axis as [| [| [| axis]]]; simpl; lia. }
    split; [rewrite slice3_inside by assumption; apply shape_tabulate |].
    split; [rewrite slice3_inside by assumption; apply wf_tabulate |].
    split.
    { intros idx Hidx. apply crop_samples; assumption. }
    { intros idx Hnz. pose proof (Hcontains idx Hnz) as Hidx.
      destruct (crop_samples current bbox idx Hinside Hidx) as [Hr Hs].
      split; [exact Hr |]. rewrite Hs. exact (proj2 Hnz). }
Qed.

Lemma crop_stage_bounding_box_witness :
  crop_stage Examples.zero_volume
  = (Examples.zero_volume, full_extent (shape Examples.zero_volume))
  /\ exists cropped bbox,
       crop_stage Examples.volume = (cropped, bbox) /\
       contains_nonzero Examples.volume bbox /\
       shape cropped = box_shape bbox.
Proof.
  assert (Hz : wf Examples.zero_volume) by (unfold wf; simpl; repeat constructor).
  assert (Hv : wf Examples.volume) by (unfold wf; simpl; repeat constructor).
  split.
  - apply (proj1 (crop_stage_bounding_box Examples.zero_volume Hz)).
    intros [[i j] k] [Hi [Hj Hk]].
    destruct i as [| i]; [| lia].
    destruct j as [| [| j]]; [| | lia];
      (destruct k as [| [| k]]; [| | lia]); reflexivity.
  - destruct (proj2 (crop_stage_bounding_box Examples.volume Hv) (0, 1, 1))
      as (cropped & bbox & Hc & Hn & _ & _ & _ & Hs & _).
    + split; [simpl; lia | reflexivity].
    + exists cropped, bbox.
      split; [exact Hc | split; [exact Hn | exact Hs]].
Defined.

(** The crop of the example volume: the two nonzero samples sit at
    (0, 1, 1) and (0, 2, 2). *)
Example crop_on_example :
  crop_stage Examples.volume
  = (mk_ndarray (1, 2, 2) [ [ [1; 0]; [0; 2000] ] ]%Q, ((0, 1), (1, 3), (1, 3))).
Proof. reflexivity. Qed.

End CropClaims.

(** * Further properties of the resolver *)

Section ResolverBehaviour.

Import Extract.

Lemma first_missing_entry_cases (cd : dict) :
  match first_missing_entry cd with
  | Some k =>
      lookup k cd = None /\
      ((k = "spacing") \/
       (k = "patch_size" /\ exists v, lookup "spacing" cd = Some v) \/
       (k = "normalization_schemes" /\
        (exists v, lookup "spacing" cd = Some v) /\
        (exists v, lookup "patch_size" cd = Some v)))
  | None =>
      (exists v, lookup "spacing" cd = Some v) /\
      (exists v, lookup "patch_size" cd = Some v) /\
      (exists v, lookup "normalization_schemes" cd = Some v)
  end.
Proof.
  unfold first_missing_entry, required_entries. cbn [find].
  destruct (mem "spacing" cd) eqn:E1; cbn [negb].
  - destruct (mem "patch_size" cd) eqn:E2; cbn [negb].
    + destruct (mem "normalization_schemes" cd) eqn:E3; cbn [negb].
      * repeat split; apply mem_lookup; assumption.
      * split; [apply not_mem_lookup, E3 |]. right. right.
        repeat split; try reflexivity; apply mem_lookup; assumption.
    + split; [apply not_mem_lookup, E2 |]. right. left.
      split; [reflexivity | apply mem_lookup, E1].
  - split; [apply not_mem_lookup, E1 |]. left. reflexivity.
Qed.

(** X10. A plan without the [configurations] entry makes the resolver
    raise [KeyError('configurations')]; a configuration that lacks one of
    [spacing], [patch_size], [normalization_schemes] makes it raise the
    [KeyError] of the first one lacking, in that order, whatever the
    fingerprint is. *)
Theorem missing_entries_raise_key_error :
  (forall pd fingerprint configuration,
     lookup "configurations" pd = None ->
     extract_preprocessing_params (JObj pd) fingerprint configuration
     = Err (KeyError (StrKey "configurations")))
  /\
  (forall plans fingerprint configuration configs cd k,
     getitem plans "configurations" = Ok (JObj configs) ->
     lookup configuration configs = Some (JObj cd) ->
     first_missing_entry cd = Some k ->
     extract_preprocessing_params plans fingerprint configuration
     = Err (KeyError (StrKey k))).
Proof.
  split.
  - intros pd fingerprint configuration H.
    unfold extract_preprocessing_params, getitem. rewrite H. reflexivity.
  - intros plans fingerprint configuration configs cd k Hc Hl Hk.
    destruct plans as [| | | | | | pd]; try discriminate Hc.
    pose proof (first_missing_entry_cases cd) as Hcases. rewrite Hk in Hcases.
    destruct Hcases as [Hnone Hwhich].
    unfold extract_preprocessing_params.
    rewrite Hc. cbn [bind py_in]. rewrite (lookup_mem _ _ _ Hl). cbn [negb].
    unfold getitem at 1. rewrite Hl. cbn [bind].
    unfold build_params, getitem.
    destruct Hwhich as [-> | [[-> [v1 H1]] | [-> [[v1 H1] [v2 H2]]]]].
    + rewrite Hnone. reflexivity.
    + rewrite H1, Hnone. reflexivity.
    + rewrite H1, H2. cbn [bind]. rewrite !get_dict. cbn [bind].
      rewrite Hnone. reflexivity.
Qed.

Lemma missing_entries_raise_key_error_witness :
  extract_preprocessing_params
    (JObj [("configurations",
            JObj [("2d", JObj [("spacing", JList [JFloat 1; JFloat 1])])])])
    JNull "2d"
  = Err (KeyError (StrKey "patch_size")).
Proof.
  apply (proj2 missing_entries_raise_key_error) with
    (configs := [("2d", JObj [("spacing", JList [JFloat 1; JFloat 1])])])
    (cd := [("spacing", JList [JFloat 1; JFloat 1])]);
    reflexivity.
Defined.

(** X13. When the plan has the configuration with its three required
    entries, a fingerprint document that is not a dict makes the resolver
    raise [AttributeError]. *)
Theorem fingerprint_must_be_a_dict
  (plans fingerprint : json) (configuration : string) (configs cd : dict) :
  getitem plans "configurations" = Ok (JObj configs) ->
  lookup configuration configs = Some (JObj cd) ->
  first_missing_entry cd = None ->
  (forall fd, fingerprint <> JObj fd) ->
  extract_preprocessing_params plans fingerprint configuration = Err AttributeError.
Proof.
  intros Hc Hl Hk Hfp.
  destruct plans as [| | | | | | pd]; try discriminate Hc.
  pose proof (first_missing_entry_cases cd) as Hcases. rewrite Hk in Hcases.
  destruct Hcases as [[v1 H1] [[v2 H2] [v3 H3]]].
  unfold extract_preprocessing_params.
  rewrite Hc. cbn [bind py_in]. rewrite (lookup_mem _ _ _ Hl). cbn [negb].
  unfold getitem at 1. rewrite Hl. cbn [bind].
  unfold build_params, getitem. rewrite H1, H2, H3. cbn [bind].
  rewrite !get_dict. cbn [bind].
  destruct fingerprint; try reflexivity.
  exfalso. exact (Hfp _ eq_refl).
Qed.

Lemma fingerprint_must_be_a_dict_witness :
  extract_preprocessing_params Examples.plans (JList []) "3d_fullres"
  = Err AttributeError.
Proof.
  eapply (fingerprint_must_be_a_dict Examples.plans (JList []) "3d_fullres");
    try reflexivity.
  intros fd H. discriminate H.
Defined.

End ResolverBehaviour.

Section ResolverRecord.

Import Extract.

(** X11. A returned record is determined by the documents, which are then
    dicts down to the configuration: the name, the three required entries
    of the configuration as they are, the optional entries of the plan and
    of the configuration when present and otherwise the defaults written
    in the source (identity axes, [[False]], the resampling function name,
    order 3 / order_z 0 for data and order 1 / order_z 0 for
    segmentations, no forced separate-z), the fingerprint's statistics or
    the empty dict, its spacing or the empty list, and the constant
    threshold. *)
Theorem resolved_record_contents
  (plans fingerprint : json) (configuration : string) (params : dict) :
  extract_preprocessing_params plans fingerprint configuration = Ok params ->
  exists pd configs cd fd spacing patch_size schemes median,
    plans = JObj pd /\
    lookup "configurations" pd = Some (JObj configs) /\
    lookup configuration configs = Some (JObj cd) /\
    fingerprint = JObj fd /\
    lookup "spacing" cd = Some spacing /\
    lookup "patch_size" cd = Some patch_size /\
    lookup "normalization_schemes" cd = Some schemes /\
    original_median_shape fingerprint = Ok median /\
    params =
      [ ("configuration_name", JStr configuration);
        ("target_spacing", spacing);
        ("patch_size", patch_size);
        ("transpose_forward",
         entry_or pd "transpose_forward" (JList [JInt 0; JInt 1; JInt 2]));
        ("transpose_backward",
         entry_or pd "transpose_backward" (JList [JInt 0; JInt 1; JInt 2]));
        ("normalization_schemes", schemes);
        ("use_mask_for_norm", entry_or cd "use_mask_for_norm" (JList [JBool false]));
        ("foreground_intensity_properties",
         entry_or fd "foreground_intensity_properties_per_channel" (JObj []));
        ("resampling_fn_data",
         entry_or cd "resampling_fn_data" (JStr "resample_data_or_seg_to_shape"));
        ("resampling_fn_data_kwargs",
         entry_or cd "resampling_fn_data_kwargs"
           (JObj [("is_seg", JBool false); ("order", JInt 3); ("order_z", JInt 0);
                  ("force_separate_z", JNull)]));
        ("resampling_fn_seg",
         entry_or cd "resampling_fn_seg" (JStr "resample_data_or_seg_to_shape"));
        ("resampling_fn_seg_kwargs",
         entry_or cd "resampling_fn_seg_kwargs"
           (JObj [("is_seg", JBool true); ("order", JInt 1); ("order_z", JInt 0);
                  ("force_separate_z", JNull)]));
        ("anisotropy_threshold", JFloat 3%Q);
        ("original_spacing", entry_or fd "spacing" (JList []));
        ("original_median_shape", median) ].
Proof.
  intros H.
  apply extract_ok_inv in H.
  destruct H as (configurations & config & Hc & Hin & Hg & Hb & _).
  destruct plans as [| | | | | | pd]; try discriminate Hc.
  unfold getitem in Hc.
  destruct (lookup "configurations" pd) as [c |] eqn:Hpd; [| discriminate Hc].
  injection Hc as ->.
  destruct configurations as [| | | | | | configs]; try discriminate Hg.
  unfold getitem in Hg.
  destruct (lookup configuration configs) as [c |] eqn:Hcfg; [| discriminate Hg].
  injection Hg as ->.
  unfold build_params in Hb.
  apply bind_ok_inv in Hb. destruct Hb as [spacing [Hs Hb]].
  destruct config as [| | | | | | cd]; try discriminate Hs.
  unfold getitem in Hs, Hb.
  destruct (lookup "spacing" cd) as [v |] eqn:E1; [| discriminate Hs].
  injection Hs as ->.
  destruct (lookup "patch_size" cd) as [patch_size |] eqn:E2; [| discriminate Hb].
  cbn [bind] in Hb. rewrite !get_dict in Hb. cbn [bind] in Hb.
  destruct (lookup "normalization_schemes" cd) as [schemes |] eqn:E3;
    [| discriminate Hb].
  cbn [bind] in Hb.
  destruct fingerprint as [| | | | | | fd]; try discriminate Hb.
  rewrite !get_dict in Hb. cbn [bind] in Hb.
  destruct (original_median_shape (JObj fd)) as [median | e] eqn:Hm;
    [| discriminate Hb].
  cbn [bind] in Hb. injection Hb as <-.
  exists pd, configs, cd, fd, spacing, patch_size, schemes, median.
  repeat split; first [assumption | reflexivity].
Qed.

Lemma resolved_record_contents_witness :
  exists params,
    extract_preprocessing_params Examples.plans Examples.fingerprint "3d_fullres"
    = Ok params /\
    lookup "resampling_fn_data_kwargs" params
    = Some (JObj [("is_seg", JBool false); ("order", JInt 3); ("order_z", JInt 0);
                  ("force_separate_z", JNull)]) /\
    lookup "transpose_backward" params = Some (JList [JInt 0; JInt 1; JInt 2]).
Proof.
  destruct (extract_preprocessing_params
              Examples.plans Examples.fingerprint "3d_fullres")
    as [params | e] eqn:H.
  - exists params. split; [reflexivity |].
    destruct (resolved_record_contents _ _ _ _ H)
      as (pd & configs & cd & fd & spacing & patch_size & schemes & median
          & Hp & Hcs & Hc & Hf & _ & _ & _ & _ & ->).
    injection Hp as <-. injection Hf as <-.
    injection Hcs as <-. injection Hc as <-.
    split; reflexivity.
  - discriminate H.
Defined.

(** X12. The recorded shapes of a returned record: when the fingerprint's
    [shapes_after_crop] entry is true as a condition, it is a non-empty
    list, or a non-empty string, and then the field
    [original_median_shape] is the string of its first character; a
    nonzero number, [true] or a non-empty dict makes the resolver fail. *)
Theorem truthy_shapes_of_a_returned_record
  (plans : json) (fd : dict) (configuration : string) (params : dict) (v : json) :
  extract_preprocessing_params plans (JObj fd) configuration = Ok params ->
  lookup "shapes_after_crop" fd = Some v ->
  truthy v = true ->
  (exists first rest, v = JList (first :: rest)) \/
  (exists c s, v = JStr (String c s) /\
               lookup "original_median_shape" params =
               Some (JStr (String c EmptyString))).
Proof.
  intros H Hv Ht.
  destruct (resolved_record_contents _ _ _ _ H)
    as (pd & configs & cd & fd' & spacing & patch_size & schemes & median
        & _ & _ & _ & _ & _ & _ & _ & Hm & ->).
  unfold original_median_shape in Hm. rewrite !get_dict in Hm.
  rewrite Hv in Hm. cbn [bind] in Hm. rewrite Ht in Hm. cbn [bind] in Hm.
  destruct v as [| b | n | q | s | l | d]; try discriminate Hm.
  - right. destruct s as [| c s]; [discriminate Hm |].
    injection Hm as <-. exists c, s. split; reflexivity.
  - left. destruct l as [| first rest]; [discriminate Ht |].
    exists first, rest. reflexivity.
Qed.

Lemma truthy_shapes_of_a_returned_record_witness :
  exists params,
    extract_preprocessing_params Examples.plans
      (JObj [("foreground_intensity_properties_per_channel",
              JObj [("0", Examples.ct_statistics)]);
             ("shapes_after_crop", JStr "abc")]) "3d_fullres" = Ok params /\
    lookup "original_median_shape" params = Some (JStr "a").
Proof.
  destruct (extract_preprocessing_params Examples.plans
              (JObj [("foreground_intensity_properties_per_channel",
                      JObj [("0", Examples.ct_statistics)]);
                     ("shapes_after_crop", JStr "abc")]) "3d_fullres")
    as [params | e] eqn:H.
  - exists params. split; [reflexivity |].
    destruct (truthy_shapes_of_a_returned_record _ _ _ _ (JStr "abc") H
                eq_refl eq_refl)
      as [[first [rest E]] | [c [s [E Hl]]]].
    + discriminate E.
    + injection E as <- <-. exact Hl.
  - discriminate H.
Defined.

End ResolverRecord.

(** * Further properties of the transpose stage *)

Section TransposeBehaviour.

Import Fixtures.

Lemma normalize_axis_inv (x : Z) (p : nat) :
  normalize_axis x = Ok p ->
  p = axis_of x /\ p < 3 /\ (-3 <= x < 3)%Z.
Proof.
  unfold normalize_axis, axis_of.
  destruct ((-3 <=? x)%Z && (x <? 3)%Z) eqn:E; [| discriminate].
  intros [= <-].
  apply andb_true_iff in E. destruct E as [E1 E2].
  apply Z.leb_le in E1. apply Z.ltb_lt in E2.
  split; [reflexivity |]. split; [| lia].
  destruct (x <? 0)%Z eqn:E3; lia.
Qed.

(** The accepted axes name each of the three axes once. *)
Lemma check_axes_three (x y z : Z) (ps : list nat) :
  check_axes [] [x; y; z] = Ok ps ->
  ps = [axis_of x; axis_of y; axis_of z] /\
  In (axis_of x, axis_of y, axis_of z) axes_orders /\
  (-3 <= x < 3)%Z /\ (-3 <= y < 3)%Z /\ (-3 <= z < 3)%Z.
Proof.
  cbn [check_axes]. intros H.
  apply bind_ok_inv in H. destruct H as [p0 [H0 H]].
  apply normalize_axis_inv in H0. destruct H0 as [-> [L0 R0]].
  change (existsb (Nat.eqb (axis_of x)) []) with false in H. cbv iota in H.
  apply bind_ok_inv in H. destruct H as [ps1 [H Hps]]. injection Hps as <-.
  apply bind_ok_inv in H. destruct H as [p1 [H1 H]].
  apply normalize_axis_inv in H1. destruct H1 as [-> [L1 R1]].
  destruct (existsb (Nat.eqb (axis_of y)) [axis_of x]) eqn:E1; [discriminate H |].
  apply bind_ok_inv in H. destruct H as [ps2 [H Hps]]. injection Hps as <-.
  apply bind_ok_inv in H. destruct H as [p2 [H2 H]].
  apply normalize_axis_inv in H2. destruct H2 as [-> [L2 R2]].
  destruct (existsb (Nat.eqb (axis_of z)) [axis_of y; axis_of x]) eqn:E2;
    [discriminate H |].
  cbn [bind check_axes] in H. injection H as <-.
  split; [reflexivity |]. split; [| repeat split; lia].
  destruct (axis_of x) as [| [| [| ?]]]; try lia;
  destruct (axis_of y) as [| [| [| ?]]]; try lia;
  destruct (axis_of z) as [| [| [| ?]]]; try lia;
  cbn in E1, E2; try discriminate; cbn; tauto.
Qed.

Lemma fancy_index_three (sp : list Q) (x y z : Z) :
  length sp = 3 ->
  (-3 <= x < 3)%Z -> (-3 <= y < 3)%Z -> (-3 <= z < 3)%Z ->
  fancy_index 0%Q sp [x; y; z]
  = Ok [nth (axis_of x) sp 0%Q; nth (axis_of y) sp 0%Q; nth (axis_of z) sp 0%Q].
Proof.
  intros Hlen Hx Hy Hz. cbn [fancy_index]. rewrite Hlen.
  change (Z.of_nat 3) with 3%Z. change (- (3))%Z with (-3)%Z.
  assert (T : forall a, (-3 <= a < 3)%Z -> ((-3 <=? a)%Z && (a <? 3)%Z) = true).
  { intros a Ha. apply andb_true_iff.
    split; [apply Z.leb_le | apply Z.ltb_lt]; lia. }
  rewrite (T x Hx), (T y Hy), (T z Hz). reflexivity.
Qed.

(** What a successful transpose stage did. *)
Lemma transpose_stage_inv (a t : ndarray Q) (sp tsp : list Q) (axes : list Z) :
  length sp = 3 ->
  transpose_stage a sp axes = Ok (t, tsp) ->
  exists p0 p1 p2,
    In (p0, p1, p2) axes_orders /\
    map axis_of axes = [p0; p1; p2] /\
    t = permute_axes 0%Q a p0 p1 p2 /\
    tsp = [nth p0 sp 0%Q; nth p1 sp 0%Q; nth p2 sp 0%Q].
Proof.
  intros Hlen H. unfold transpose_stage in H.
  apply bind_ok_inv in H. destruct H as [t' [Ht H]].
  apply bind_ok_inv in H. destruct H as [tsp' [Hs H]].
  injection H as <- <-.
  unfold np_transpose in Ht.
  destruct axes as [| x [| y [| z [| w axes]]]]; try discriminate Ht.
  apply bind_ok_inv in Ht. destruct Ht as [ps [Hc Ht]].
  apply check_axes_three in Hc. destruct Hc as [-> [Hin [Hx [Hy Hz]]]].
  injection Ht as <-.
  rewrite (fancy_index_three sp x y z Hlen Hx Hy Hz) in Hs. injection Hs as <-.
  exists (axis_of x), (axis_of y), (axis_of z).
  repeat split; try reflexivity. exact Hin.
Qed.

(** X3. A successful transpose stage on a volume with a three-element
    spacing used an order of the three axes (a negative entry of the axes
    counting from the end): the result is well-formed, its shape and its
    spacing are the input's shape and spacing taken in that same order, and
    its sample at [(i0, i1, i2)] is the input's sample whose index along
    the axis in position [m] of the order is [i_m]. *)
Theorem transpose_keeps_spacing_aligned
  (a t : ndarray Q) (sp tsp : list Q) (axes : list Z) :
  length sp = 3 ->
  transpose_stage a sp axes = Ok (t, tsp) ->
  exists p0 p1 p2,
    In (p0, p1, p2) axes_orders /\
    map axis_of axes = [p0; p1; p2] /\
    wf t /\
    shape t = (vnth (shape a) p0, vnth (shape a) p1, vnth (shape a) p2) /\
    tsp = [nth p0 sp 0%Q; nth p1 sp 0%Q; nth p2 sp 0%Q] /\
    (forall i0 i1 i2,
       in_range (shape t) (i0, i1, i2) ->
       sample 0%Q t i0 i1 i2
       = sample 0%Q a (source_index p0 p1 p2 i0 i1 i2 0)
                      (source_index p0 p1 p2 i0 i1 i2 1)
                      (source_index p0 p1 p2 i0 i1 i2 2)).
Proof.
  intros Hlen H.
  destruct (transpose_stage_inv _ _ _ _ _ Hlen H)
    as (p0 & p1 & p2 & Hin & Hax & -> & ->).
  exists p0, p1, p2.
  split; [exact Hin |]. split; [exact Hax |].
  unfold permute_axes.
  split; [apply wf_tabulate |]. split; [apply shape_tabulate |].
  split; [reflexivity |].
  intros i0 i1 i2. rewrite shape_tabulate. cbn [in_range].
  intros [H0 [H1 H2]]. rewrite sample_tabulate by assumption. reflexivity.
Qed.

Lemma transpose_keeps_spacing_aligned_witness :
  exists t,
    transpose_stage Examples.volume [25 # 10; 7 # 10; 8 # 10]%Q [-1; 0; 1]%Z
    = Ok (t, [8 # 10; 25 # 10; 7 # 10]%Q) /\
    shape t = (4, 2, 3).
Proof.
  destruct (transpose_stage Examples.volume [25 # 10; 7 # 10; 8 # 10]%Q [-1; 0; 1]%Z)
    as [[t tsp] | e] eqn:H.
  - destruct (transpose_keeps_spacing_aligned
                Examples.volume t [25 # 10; 7 # 10; 8 # 10]%Q tsp [-1; 0; 1]%Z
                eq_refl H)
      as (p0 & p1 & p2 & _ & Hax & _ & Hs & -> & _).
    injection Hax as <- <- <-.
    exists t. split; [reflexivity | exact Hs].
  - discriminate H.
Defined.

(** X2. With the default axes [[0, 1, 2]] the transpose stage returns a
    well-formed volume and its three-element spacing as they are. *)
Theorem default_transpose_changes_nothing (a : ndarray Q) (sp : list Q) :
  wf a ->
  length sp = 3 ->
  transpose_stage a sp [0; 1; 2]%Z = Ok (a, sp).
Proof.
  intros Hwf Hlen.
  destruct sp as [| s0 [| s1 [| s2 [| s3 sp]]]]; try discriminate Hlen.
  erewrite transpose_stage_axes by reflexivity.
  f_equal. f_equal.
  destruct a as [[[n0 n1] n2] l].
  unfold permute_axes. cbn [shape vnth].
  etransitivity; [| exact (tabulate_sample 0%Q _ Hwf)].
  cbn [shape]. apply tabulate_ext. intros i j k _ _ _. reflexivity.
Qed.

Lemma default_transpose_changes_nothing_witness :
  transpose_stage Examples.volume [25 # 10; 7 # 10; 7 # 10]%Q [0; 1; 2]%Z
  = Ok (Examples.volume, [25 # 10; 7 # 10; 7 # 10]%Q).
Proof.
  apply default_transpose_changes_nothing.
  - unfold wf. simpl. repeat constructor.
  - reflexivity.
Defined.

End TransposeBehaviour.

(** * Further properties of the crop stage *)

Section CropBehaviour.

Import Fixtures.

Lemma nonzero_shifted (a : ndarray Q) (box : vec3 (nat * nat)) (idx : vec3 nat) :
  inside_box box (full_extent (shape a)) ->
  in_box box idx ->
  nonzero_at a idx ->
  nonzero_at (slice3 0%Q a box) (shift box idx).
Proof.
  intros Hin Hidx [_ Hnz].
  destruct (crop_samples a box idx Hin Hidx) as [Hr Hs].
  split; [exact Hr | rewrite Hs; exact Hnz].
Qed.

Lemma vnth_shift (box : vec3 (nat * nat)) (idx : vec3 nat) (axis : nat) :
  vnth (shift box idx) axis = vnth idx axis - fst (vnth box axis).
Proof.
  destruct box as [[b0 b1] b2]. destruct idx as [[i j] k].
  destruct axis as [| [| axis]]; reflexivity.
Qed.

Lemma vnth_box_shape (box : vec3 (nat * nat)) (axis : nat) :
  vnth (box_shape box) axis = snd (vnth box axis) - fst (vnth box axis).
Proof.
  destruct box as [[b0 b1] b2].
  destruct axis as [| [| axis]]; reflexivity.
Qed.

(** The crop of a volume with a nonzero sample: the box of the three
    intervals, each met at both ends by a nonzero sample. *)
Lemma crop_stage_nonzero (current : ndarray Q) (idx0 : vec3 nat) :
  wf current ->
  nonzero_at current idx0 ->
  exists bbox,
    crop_stage current = (slice3 0%Q current bbox, bbox) /\
    inside_box bbox (full_extent (shape current)) /\
    contains_nonzero current bbox /\
    (forall axis, axis < 3 ->
       exists idx, nonzero_at current idx /\ vnth idx axis = fst (vnth bbox axis)) /\
    (forall axis, axis < 3 ->
       exists idx, nonzero_at current idx /\ vnth idx axis + 1 = snd (vnth bbox axis)).
Proof.
  intros Hwf [Hr0 H0].
  pose proof (wf_amap nonzero current Hwf) as Hwfm.
  fold (nonzero_mask current) in Hwfm.
  assert (Hm0 : sample_at false (nonzero_mask current) idx0 = true)
    by (rewrite sample_nonzero_mask; exact H0).
  assert (Hany : any (nonzero_mask current) = true).
  { apply (any_true_iff _ Hwfm). exists idx0. split; assumption. }
  unfold crop_stage. rewrite Hany.
  destruct (axis_bbox_spec (nonzero_mask current) 0 idx0 Hr0 Hm0)
    as (lo0 & hi0 & B0 & N0 & I0 & C0 & (f0 & Rf0 & Sf0 & Vf0) & (l0 & Rl0 & Sl0 & Vl0)).
  destruct (axis_bbox_spec (nonzero_mask current) 1 idx0 Hr0 Hm0)
    as (lo1 & hi1 & B1 & N1 & I1 & C1 & (f1 & Rf1 & Sf1 & Vf1) & (l1 & Rl1 & Sl1 & Vl1)).
  destruct (axis_bbox_spec (nonzero_mask current) 2 idx0 Hr0 Hm0)
    as (lo2 & hi2 & B2 & N2 & I2 & C2 & (f2 & Rf2 & Sf2 & Vf2) & (l2 & Rl2 & Sl2 & Vl2)).
  rewrite B0, B1, B2.
  change (shape (nonzero_mask current)) with (shape current) in *.
  rewrite sample_nonzero_mask in Sf0, Sl0, Sf1, Sl1, Sf2, Sl2.
  exists ((lo0, hi0), (lo1, hi1), (lo2, hi2)).
  split; [reflexivity |]. split; [| split; [| split]].
  - intros axis Hax. destruct (shape current) as [[n0 n1] n2].
    destruct axis as [| [| [| axis]]]; simpl in *; lia.
  - intros idx [Hr H] axis Hax.
    assert (Hm : sample_at false (nonzero_mask current) idx = true)
      by (rewrite sample_nonzero_mask; exact H).
    destruct axis as [| [| [| axis]]]; simpl; try lia.
    + exact (C0 idx Hr Hm).
    + exact (C1 idx Hr Hm).
    + exact (C2 idx Hr Hm).
  - intros axis Hax. destruct axis as [| [| [| axis]]]; try lia.
    + exists f0. split; [split; assumption | exact Vf0].
    + exists f1. split; [split; assumption | exact Vf1].
    + exists f2. split; [split; assumption | exact Vf2].
  - intros axis Hax. destruct axis as [| [| [| axis]]]; try lia.
    + exists l0. split; [split; assumption | exact Vl0].
    + exists l1. split; [split; assumption | exact Vl1].
    + exists l2. split; [split; assumption | exact Vl2].
Qed.

Lemma slice3_full_extent (c : ndarray Q) :
  wf c -> slice3 0%Q c (full_extent (shape c)) = c.
Proof.
  intros Hwf. rewrite slice3_inside.
  - destruct c as [[[n0 n1] n2] l].
    etransitivity; [| exact (tabulate_sample 0%Q _ Hwf)].
    cbn [shape full_extent box_shape fst snd vnth]. rewrite !Nat.sub_0_r.
    apply tabulate_ext. intros i j k _ _ _.
    cbn [sample_at]. rewrite !Nat.add_0_r. reflexivity.
  - intros axis Hax. split; lia.
  - intros axis Hax. destruct (shape c) as [[n0 n1] n2].
    destruct axis as [| [| axis]]; simpl; lia.
Qed.

(** A volume whose every axis carries a nonzero sample at its first and
    at its last index is returned as it is. *)
Lemma crop_stage_tight (c : ndarray Q) (idx0 : vec3 nat) :
  wf c ->
  nonzero_at c idx0 ->
  (forall axis, axis < 3 -> exists idx, nonzero_at c idx /\ vnth idx axis = 0) ->
  (forall axis, axis < 3 ->
     exists idx, nonzero_at c idx /\ vnth idx axis + 1 = vnth (shape c) axis) ->
  crop_stage c = (c, full_extent (shape c)).
Proof.
  intros Hwf Hnz Hfirst Hlast.
  destruct (crop_stage_nonzero c idx0 Hwf Hnz)
    as (bbox & -> & Hin & Hcont & _ & _).
  assert (Hbox : bbox = full_extent (shape c)).
  { assert (Haxis : forall axis, axis < 3 ->
                     vnth bbox axis = (0, vnth (shape c) axis)).
    { intros axis Hax.
      destruct (Hfirst axis Hax) as (f & Hf & Vf).
      destruct (Hlast axis Hax) as (l & Hl & Vl).
      pose proof (Hcont f Hf axis Hax) as [Lf _].
      pose proof (Hcont l Hl axis Hax) as [_ Ul].
      pose proof (Hin axis Hax) as [_ Hi].
      assert (E : snd (vnth (full_extent (shape c)) axis) = vnth (shape c) axis).
      { destruct (shape c) as [[n0 n1] n2].
        destruct axis as [| [| [| axis]]]; try lia; reflexivity. }
      rewrite E in Hi.
      destruct (vnth bbox axis) as [lo hi]. simpl in *. f_equal; lia. }
    pose proof (Haxis 0 ltac:(lia)) as A0.
    pose proof (Haxis 1 ltac:(lia)) as A1.
    pose proof (Haxis 2 ltac:(lia)) as A2.
    destruct bbox as [[b0 b1] b2]. destruct (shape c) as [[n0 n1] n2].
    simpl in A0, A1, A2. subst. reflexivity. }
  rewrite Hbox. rewrite slice3_full_extent by exact Hwf. reflexivity.
Qed.

(** X1. Cropping is idempotent: for a well-formed volume, the crop stage
    applied to the array it returned returns that array again, with the
    full extent of each axis as the box. *)
Theorem crop_stage_idempotent (current : ndarray Q) :
  wf current ->
  crop_stage (fst (crop_stage current))
  = (fst (crop_stage current), full_extent (shape (fst (crop_stage current)))).
Proof.
  intros Hwf.
  pose proof (wf_amap nonzero current Hwf) as Hwfm.
  fold (nonzero_mask current) in Hwfm.
  destruct (any (nonzero_mask current)) eqn:Hany.
  - apply (any_true_iff _ Hwfm) in Hany. destruct Hany as [idx0 [Hr0 H0]].
    rewrite sample_nonzero_mask in H0.
    change (shape (nonzero_mask current)) with (shape current) in Hr0.
    destruct (crop_stage_nonzero current idx0 Hwf (conj Hr0 H0))
      as (bbox & -> & Hin & Hcont & Hfirst & Hlast).
    cbn [fst].
    assert (Hle : forall axis, axis < 3 ->
                               fst (vnth bbox axis) <= snd (vnth bbox axis)).
    { intros axis Hax. destruct (Hcont idx0 (conj Hr0 H0) axis Hax). lia. }
    assert (Hshape : shape (slice3 0%Q current bbox) = box_shape bbox)
      by (rewrite slice3_inside by assumption; apply shape_tabulate).
    apply crop_stage_tight with (idx0 := shift bbox idx0).
    + rewrite slice3_inside by assumption. apply wf_tabulate.
    + apply nonzero_shifted; [exact Hin | | split; assumption].
      exact (Hcont idx0 (conj Hr0 H0)).
    + intros axis Hax. destruct (Hfirst axis Hax) as (f & Hf & Vf).
      exists (shift bbox f). split.
      * apply nonzero_shifted; [exact Hin | exact (Hcont f Hf) | exact Hf].
      * rewrite vnth_shift. lia.
    + intros axis Hax. destruct (Hlast axis Hax) as (l & Hl & Vl).
      exists (shift bbox l). split.
      * apply nonzero_shifted; [exact Hin | exact (Hcont l Hl) | exact Hl].
      * rewrite Hshape, vnth_shift, vnth_box_shape.
        pose proof (Hcont l Hl axis Hax). lia.
  - unfold crop_stage at 2 3 4. rewrite Hany. cbn [fst].
    unfold crop_stage. rewrite Hany. reflexivity.
Qed.

Lemma crop_stage_idempotent_witness :
  crop_stage (fst (crop_stage Examples.volume))
  = (fst (crop_stage Examples.volume), ((0, 1), (0, 2), (0, 2))).
Proof.
  apply (crop_stage_idempotent Examples.volume).
  unfold wf. simpl. repeat constructor.
Defined.

End CropBehaviour.

(** * Further properties of the normalization stage *)

Section NormalizationBehaviour.

Import Fixtures.







Lemma first_missing_statistic_cases (props : tdict Q) :
  match first_missing_statistic props with
  | Some k =>
      tlookup k props = None /\
      ((k = "mean") \/
       (k = "std" /\ exists m, tlookup "mean" props = Some m) \/
       (k = "percentile_00_5" /\
        exists m s, tlookup "mean" props = Some m /\ tlookup "std" props = Some s) \/
       (k = "percentile_99_5" /\
        exists m s l, tlookup "mean" props = Some m /\ tlookup "std" props = Some s /\
                      tlookup "percentile_00_5" props = Some l))
  | None =>
      exists m s l u,
        tlookup "mean" props = Some m /\ tlookup "std" props = Some s /\
        tlookup "percentile_00_5" props = Some l /\
        tlookup "percentile_99_5" props = Some u
  end.
Proof.
  unfold first_missing_statistic, statistics_keys. cbn [find].
  destruct (tlookup "mean" props) as [m |] eqn:E1.
  - destruct (tlookup "std" props) as [s |] eqn:E2.
    + destruct (tlookup "percentile_00_5" props) as [l |] eqn:E3.
      * destruct (tlookup "percentile_99_5" props) as [u |] eqn:E4.
        -- exists m, s, l, u. repeat split; first [assumption | reflexivity].
        -- split; [first [exact E4 | reflexivity] |]. right. right. right.
           split; [reflexivity |]. exists m, s, l.
           repeat split; first [assumption | reflexivity].
      * split; [first [exact E3 | reflexivity] |]. right. right. left.
        split; [reflexivity |]. exists m, s.
        split; first [assumption | reflexivity].
    + split; [first [exact E2 | reflexivity] |]. right. left.
      split; [reflexivity |]. exists m. first [exact E1 | reflexivity].
  - split; [first [exact E1 | reflexivity] |]. left. reflexivity.
Qed.

(** X5. The two variants differ on a missing statistic.  With
    "CTNormalization" in the scheme list and a statistics dict for channel
    "0" that lacks one of mean, std, percentile_00_5, percentile_99_5,
    [generate_fixtures] raises the [KeyError] of the first one lacking, in
    that order, while [generate_synthetic_fixtures] normalizes with the
    default written in the source (100.5, 50.2, -1024.0, 1500.0) in the
    place of each lacking one. *)
Theorem missing_statistic_key_error_or_default
  (schemes : list string) (fp : fingerprint) (p : params)
  (channels : tdict (tdict Q)) (props : tdict Q) (k : string) (current : ndarray Q) :
  str_in "CTNormalization" schemes = true ->
  foreground_intensity_properties_per_channel fp = Some channels ->
  params_normalization_schemes p = Some schemes ->
  foreground_intensity_properties p = Some channels ->
  tlookup "0" channels = Some props ->
  first_missing_statistic props = Some k ->
  normalization_stage schemes fp current = Err (KeyError (StrKey k)) /\
  synthetic_normalization_stage p current
  = Ok (ct_normalize (get_or "mean" props (1005 # 10)%Q)
                     (get_or "std" props (502 # 10)%Q)
                     (get_or "percentile_00_5" props (- (1024 # 1))%Q)
                     (get_or "percentile_99_5" props (1500 # 1)%Q)
                     current).
Proof.
  intros Hct Hfp Hs Hf H0 Hk.
  pose proof (first_missing_statistic_cases props) as Hcases.
  rewrite Hk in Hcases. destruct Hcases as [Hnone Hwhich].
  split.
  - unfold normalization_stage, require, item.
    rewrite Hct, Hfp. cbn [bind]. rewrite H0. cbn [bind].
    destruct Hwhich
      as [-> | [[-> [m Hm]] | [[-> [m [s [Hm Hsd]]]]
                               | [-> [m [s [l [Hm [Hsd Hl]]]]]]]]].
    + rewrite Hnone. reflexivity.
    + rewrite Hm, Hnone. reflexivity.
    + rewrite Hm, Hsd, Hnone. reflexivity.
    + rewrite Hm, Hsd, Hl, Hnone. reflexivity.
  - unfold synthetic_normalization_stage, require.
    rewrite Hs, Hf. cbn [or_default]. rewrite Hct. cbn [bind].
    unfold get_or. rewrite H0. reflexivity.
Qed.

Lemma missing_statistic_key_error_or_default_witness :
  normalization_stage ["CTNormalization"]
    (mk_fingerprint (Some [("0", [("mean", 1%Q)])])) Examples.thin_volume
  = Err (KeyError (StrKey "std")).
Proof.
  exact (proj1 (missing_statistic_key_error_or_default
                  ["CTNormalization"]
                  (mk_fingerprint (Some [("0", [("mean", 1%Q)])]))
                  (mk_params None None None (Some ["CTNormalization"])
                     (Some [("0", [("mean", 1%Q)])]) None None)
                  [("0", [("mean", 1%Q)])] [("mean", 1%Q)] "std"
                  Examples.thin_volume
                  eq_refl eq_refl eq_refl eq_refl eq_refl eq_refl)).
Defined.

End NormalizationBehaviour.

(** * Further properties of the target shape *)

Section TargetShapeBehaviour.

Import Fixtures.

Lemma np_round_integer (z : Z) : np_round (inject_Z z) = z.
Proof.
  unfold np_round. rewrite Qfloor_Z.
  destruct (inject_Z z - inject_Z z ?= 1 # 2)%Q eqn:E;
    [ apply Qeq_alt in E | reflexivity | apply Qgt_alt in E ];
    exfalso; set (q := inject_Z z) in *; clearbody q; lra.
Qed.






(** X8. Resampling to the spacing the volume already has keeps the shape:
    for positive spacing components the target shape computed from equal
    current and target spacings is the current shape. *)
Theorem equal_spacing_keeps_shape (n0 n1 n2 : nat) (c0 c1 c2 : Q) :
  (0 < c0)%Q -> (0 < c1)%Q -> (0 < c2)%Q ->
  compute_target_shape (n0, n1, n2) [c0; c1; c2] [c0; c1; c2]
  = Ok [Z.of_nat n0; Z.of_nat n1; Z.of_nat n2].
Proof.
  intros H0 H1 H2. rewrite compute_target_shape_axes.
  assert (E : forall (n : nat) (c : Q),
             (0 < c)%Q -> np_round (inject_Z (Z.of_nat n) * (c / c)) = Z.of_nat n).
  { intros n c Hc. rewrite <- (np_round_integer (Z.of_nat n)) at 2.
    apply np_round_compat.
    field. intros F. rewrite F in Hc. discriminate Hc. }
  rewrite !E by assumption. reflexivity.
Qed.

Lemma equal_spacing_keeps_shape_witness :
  compute_target_shape (32, 64, 64) [25 # 10; 7 # 10; 7 # 10]%Q
    [25 # 10; 7 # 10; 7 # 10]%Q
  = Ok [32; 64; 64]%Z.
Proof.
  exact (equal_spacing_keeps_shape 32 64 64 (25 # 10) (7 # 10) (7 # 10)
           eq_refl eq_refl eq_refl).
Defined.



End TargetShapeBehaviour.

(** * Properties of the whole pipeline *)

Section PipelineBehaviour.

Import Fixtures.

Variable resample :
  list (ndarray Q) -> list Z -> list Q -> list Q -> kwargs ->
  result (list (ndarray Q)).

Lemma fancy_index_length {A : Type} (d : A) (v : list A) (axes : list Z) (l : list A) :
  fancy_index d v axes = Ok l -> length l = length axes.
Proof.
  revert l. induction axes as [| ax axes IH]; intros l H.
  - injection H as <-. reflexivity.
  - cbn [fancy_index] in H.
    destruct ((- Z.of_nat (length v) <=? ax)%Z && (ax <? Z.of_nat (length v))%Z);
      [| discriminate H].
    apply bind_ok_inv in H. destruct H as [tl [Htl H]].
    injection H as <-. cbn [length]. f_equal. apply IH, Htl.
Qed.

Lemma size_permute_axes (a : ndarray Q) (p0 p1 p2 : nat) :
  In (p0, p1, p2) axes_orders ->
  size (shape (permute_axes 0%Q a p0 p1 p2)) = size (shape a).
Proof.
  intros Hin. unfold permute_axes. rewrite shape_tabulate.
  destruct (shape a) as [[n0 n1] n2].
  cbn [In axes_orders] in Hin.
  repeat (destruct Hin as [Hin | Hin];
          [injection Hin as <- <- <-; cbn [vnth size]; ring |]).
  contradiction.
Qed.

(** A successful transpose stage, whatever the length of the spacing. *)
Lemma transpose_stage_result (a t : ndarray Q) (sp tsp : list Q) (axes : list Z) :
  transpose_stage a sp axes = Ok (t, tsp) ->
  wf t /\ size (shape t) = size (shape a) /\ length tsp = 3.
Proof.
  intros H. unfold transpose_stage in H.
  apply bind_ok_inv in H. destruct H as [t' [Ht H]].
  apply bind_ok_inv in H. destruct H as [tsp' [Hs H]].
  injection H as <- <-.
  apply fancy_index_length in Hs.
  unfold np_transpose in Ht.
  destruct axes as [| x [| y [| z [| w axes]]]]; try discriminate Ht.
  apply bind_ok_inv in Ht. destruct Ht as [ps [Hc Ht]].
  apply check_axes_three in Hc. destruct Hc as [-> [Hin _]].
  injection Ht as <-.
  split; [apply wf_tabulate |]. split; [apply size_permute_axes, Hin | exact Hs].
Qed.

Lemma crop_stage_wf (a : ndarray Q) : wf a -> wf (fst (crop_stage a)).
Proof.
  intros Hwf. unfold crop_stage.
  destruct (any (nonzero_mask a)); [| exact Hwf].
  cbn [fst]. unfold slice3.
  destruct (shape a) as [[n0 n1] n2].
  destruct (slice_bounds n0 (axis_bbox (nonzero_mask a) 0)).
  destruct (slice_bounds n1 (axis_bbox (nonzero_mask a) 1)).
  destruct (slice_bounds n2 (axis_bbox (nonzero_mask a) 2)).
  apply wf_tabulate.
Qed.


Lemma normalization_stage_result (schemes : list string) (fp : fingerprint)
  (c n : ndarray Q) :
  normalization_stage schemes fp c = Ok n ->
  shape n = shape c /\ (wf c -> wf n).
Proof.
  unfold normalization_stage.
  destruct (str_in "CTNormalization" schemes).
  - intros H.
    repeat (apply bind_ok_inv in H; destruct H as [? [_ H]]).
    injection H as <-. split; [reflexivity |].
    intros Hwf. unfold ct_normalize. apply wf_amap, wf_amap, Hwf.
  - intros [= <-]. split; [reflexivity | exact (fun H => H)].
Qed.

Lemma synthetic_normalization_stage_result (p : params) (c n : ndarray Q) :
  synthetic_normalization_stage p c = Ok n ->
  shape n = shape c /\ (wf c -> wf n).
Proof.
  unfold synthetic_normalization_stage.
  destruct (str_in "CTNormalization" (or_default (params_normalization_schemes p) [])).
  - intros H.
    apply bind_ok_inv in H. destruct H as [? [_ H]].
    injection H as <-. split; [reflexivity |].
    intros Hwf. unfold ct_normalize. apply wf_amap, wf_amap, Hwf.
  - intros [= <-]. split; [reflexivity | exact (fun H => H)].
Qed.

Lemma summary_statistics_ok (n : ndarray Q) (u : unit) :
  summary_statistics n = Ok u -> 0 < size (shape n).
Proof.
  unfold summary_statistics, size. destruct (shape n) as [[n0 n1] n2].
  destruct (Nat.eqb (n0 * n1 * n2) 0) eqn:E; [discriminate |].
  intros _. apply Nat.eqb_neq in E. lia.
Qed.

(** The steps of a run of [generate_fixtures] that returned. *)
Lemma generate_fixtures_inv (raw_data : ndarray Q) (spacing : list Q)
  (pl : plans) (fp : fingerprint) (configuration : string) (st : stages) :
  generate_fixtures resample raw_data spacing pl fp configuration = Ok st ->
  exists schemes t tsp n u r,
    transpose_stage raw_data spacing (or_default (transpose_forward pl) [0; 1; 2]%Z)
    = Ok (t, tsp) /\
    normalization_stage schemes fp (fst (crop_stage t)) = Ok n /\
    summary_statistics n = Ok u /\
    st = mk_stages raw_data t tsp (fst (crop_stage t)) (snd (crop_stage t)) n r.
Proof.
  unfold generate_fixtures. intros H.
  apply bind_ok_inv in H. destruct H as [all_configs [_ H]].
  apply bind_ok_inv in H. destruct H as [config [_ H]].
  apply bind_ok_inv in H. destruct H as [[t tsp] [Ht H]].
  destruct (crop_stage t) as [c bbox_list] eqn:Hc.
  apply bind_ok_inv in H. destruct H as [schemes [_ H]].
  apply bind_ok_inv in H. destruct H as [n [Hn H]].
  apply bind_ok_inv in H. destruct H as [u [Hu H]].
  apply bind_ok_inv in H. destruct H as [target [_ H]].
  apply bind_ok_inv in H. destruct H as [r [_ H]].
  injection H as <-.
  exists schemes, t, tsp, n, u, r. rewrite Hc. cbn [fst snd].
  repeat split; first [assumption | reflexivity].
Qed.

(** The steps of a run of [generate_synthetic_fixtures] that returned. *)
Lemma generate_synthetic_fixtures_inv (raw_data : ndarray Q) (p : params)
  (st : stages) :
  generate_synthetic_fixtures resample raw_data p = Ok st ->
  exists t tsp n u r,
    transpose_stage raw_data
      (or_default (original_spacing p) [25 # 10; 7 # 10; 7 # 10]%Q)
      (or_default (params_transpose_forward p) [0; 1; 2]%Z)
    = Ok (t, tsp) /\
    synthetic_normalization_stage p (fst (crop_stage t)) = Ok n /\
    summary_statistics n = Ok u /\
    st = mk_stages raw_data t tsp (fst (crop_stage t)) (snd (crop_stage t)) n r.
Proof.
  unfold generate_synthetic_fixtures. intros H.
  apply bind_ok_inv in H. destruct H as [name [_ H]].
  apply bind_ok_inv in H. destruct H as [[t tsp] [Ht H]].
  destruct (crop_stage t) as [c bbox_list] eqn:Hc.
  apply bind_ok_inv in H. destruct H as [n [Hn H]].
  apply bind_ok_inv in H. destruct H as [u [Hu H]].
  apply bind_ok_inv in H. destruct H as [r [_ H]].
  injection H as <-.
  exists t, tsp, n, u, r. rewrite Hc. cbn [fst snd].
  repeat split; first [assumption | reflexivity].
Qed.

Lemma stages_consistent_intro (raw_data t c n r : ndarray Q) (tsp : list Q)
  (u : unit) :
  wf t -> size (shape t) = size (shape raw_data) -> length tsp = 3 ->
  shape n = shape (fst (crop_stage t)) ->
  (wf (fst (crop_stage t)) -> wf n) ->
  summary_statistics n = Ok u ->
  stages_consistent raw_data
    (mk_stages raw_data t tsp (fst (crop_stage t)) (snd (crop_stage t)) n r).
Proof.
  intros Hwf Hsize Hlen Hshape Hwfn Hu.
  unfold stages_consistent. cbn.
  pose proof (crop_stage_wf t Hwf) as Hc.
  repeat split; try assumption.
  - destruct (crop_stage t); reflexivity.
  - apply Hwfn, Hc.
  - eapply summary_statistics_ok, Hu.
Qed.

(** X7. In every run of either variant that returns, the stage arrays fit
    together: the raw stage is the input; the transposed array is
    well-formed, has as many samples as the input and a three-element
    spacing; the cropped array and the box are the crop of the transposed
    array; the normalized array is well-formed, has the shape of the
    cropped one and at least one sample. *)
Theorem returned_stages_are_consistent
  (raw_data : ndarray Q) (spacing : list Q) (pl : plans) (fp : fingerprint)
  (configuration : string) (p : params) (st : stages) :
  (generate_fixtures resample raw_data spacing pl fp configuration = Ok st ->
   stages_consistent raw_data st) /\
  (generate_synthetic_fixtures resample raw_data p = Ok st ->
   stages_consistent raw_data st).
Proof.
  split; intros H.
  - apply generate_fixtures_inv in H.
    destruct H as (schemes & t & tsp & n & u & r & Ht & Hn & Hu & ->).
    destruct (transpose_stage_result _ _ _ _ _ Ht) as [Hwf [Hsize Hlen]].
    destruct (normalization_stage_result _ _ _ _ Hn) as [Hshape Hwfn].
    eapply stages_consistent_intro; eassumption.
  - apply generate_synthetic_fixtures_inv in H.
    destruct H as (t & tsp & n & u & r & Ht & Hn & Hu & ->).
    destruct (transpose_stage_result _ _ _ _ _ Ht) as [Hwf [Hsize Hlen]].
    destruct (synthetic_normalization_stage_result _ _ _ Hn) as [Hshape Hwfn].
    eapply stages_consistent_intro; eassumption.
Qed.


End PipelineBehaviour.

Section PipelineWitnesses.

Import Fixtures.

Lemma returned_stages_are_consistent_witness :
  exists st,
    generate_synthetic_fixtures Examples.pass_through_resampler
      Examples.volume Examples.synthetic_params = Ok st /\
    stages_consistent Examples.volume st.
Proof.
  destruct (generate_synthetic_fixtures Examples.pass_through_resampler
              Examples.volume Examples.synthetic_params) as [st | e] eqn:H.
  - exists st. split; [reflexivity |].
    exact (proj2 (returned_stages_are_consistent
                    Examples.pass_through_resampler Examples.volume []
                    Examples.fixture_plans Examples.fixture_fingerprint "3d_fullres"
                    Examples.synthetic_params st) H).
  - discriminate H.
Defined.


(** The empty volume passes the first three stages and fails at the
    summary statistics. *)
Example empty_volume_fails_at_stage_4 :
  generate_fixtures Examples.pass_through_resampler Examples.empty_volume
    [25 # 10; 7 # 10; 7 # 10]%Q Examples.fixture_plans
    Examples.fixture_fingerprint "3d_fullres"
  = Err (ValueError ZeroSizeReduction).
Proof. reflexivity. Qed.



End PipelineWitnesses.

Section TransposeAcceptance.

Import Fixtures.

Lemma normalize_axis_in_range (x : Z) :
  (-3 <= x < 3)%Z -> normalize_axis x = Ok (axis_of x).
Proof.
  intros Hx. unfold normalize_axis, axis_of.
  assert (E : ((-3 <=? x)%Z && (x <? 3)%Z) = true).
  { apply andb_true_iff. split; [apply Z.leb_le | apply Z.ltb_lt]; lia. }
  rewrite E. reflexivity.
Qed.

Lemma check_axes_accepts (x y z : Z) :
  (-3 <= x < 3)%Z -> (-3 <= y < 3)%Z -> (-3 <= z < 3)%Z ->
  In (axis_of x, axis_of y, axis_of z) axes_orders ->
  check_axes [] [x; y; z] = Ok [axis_of x; axis_of y; axis_of z].
Proof.
  intros Hx Hy Hz Hin. cbn [check_axes].
  rewrite (normalize_axis_in_range x Hx), (normalize_axis_in_range y Hy),
    (normalize_axis_in_range z Hz).
  cbn [In axes_orders] in Hin.
  repeat (destruct Hin as [Hin | Hin];
          [injection Hin as <- <- <-; reflexivity |]).
  contradiction.
Qed.

(** X15. On a volume with a three-element spacing the transpose stage
    returns exactly when the axes are three integers between -3 and 2 that
    name, a negative one counting from the end, each of the three axes
    once; any other list of axes makes it raise. *)
Theorem transpose_accepts_exactly_the_orders
  (a : ndarray Q) (sp : list Q) (axes : list Z) :
  length sp = 3 ->
  (exists t tsp, transpose_stage a sp axes = Ok (t, tsp)) <->
  (exists x y z,
     axes = [x; y; z] /\
     (-3 <= x < 3)%Z /\ (-3 <= y < 3)%Z /\ (-3 <= z < 3)%Z /\
     In (axis_of x, axis_of y, axis_of z) axes_orders).
Proof.
  intros Hlen. split.
  - intros (t & tsp & H). unfold transpose_stage in H.
    apply bind_ok_inv in H. destruct H as [t' [Ht _]].
    unfold np_transpose in Ht.
    destruct axes as [| x [| y [| z [| w axes]]]]; try discriminate Ht.
    apply bind_ok_inv in Ht. destruct Ht as [ps [Hc _]].
    apply check_axes_three in Hc. destruct Hc as (_ & Hin & Hx & Hy & Hz).
    exists x, y, z. repeat split; try lia. exact Hin.
  - intros (x & y & z & -> & Hx & Hy & Hz & Hin).
    exists (permute_axes 0%Q a (axis_of x) (axis_of y) (axis_of z)).
    eexists. apply transpose_stage_axes.
    + apply check_axes_accepts; assumption.
    + apply fancy_index_three; assumption.
Qed.

Lemma transpose_accepts_exactly_the_orders_witness :
  ~ (exists t tsp,
       transpose_stage Examples.volume [25 # 10; 7 # 10; 7 # 10]%Q [0; 0; 1]%Z
       = Ok (t, tsp)).
Proof.
  intros H.
  apply (proj1 (transpose_accepts_exactly_the_orders Examples.volume
                  [25 # 10; 7 # 10; 7 # 10]%Q [0; 0; 1]%Z eq_refl)) in H.
  destruct H as (x & y & z & E & _ & _ & _ & Hin).
  injection E as <- <- <-.
  cbn in Hin. repeat (destruct Hin as [Hin | Hin]; [discriminate Hin |]).
  contradiction.
Defined.

End TransposeAcceptance.
